(** * EasyDict-GTK: the SQLite dictionary backend

    A shallow embedding of [easydict_gtk/backends/sqlite_backend.py]
    (class [SQLiteBackend]) together with the properties of its
    specification.

    What is embedded from the repository:
    - [SQLiteBackend.regexp], [__init__], [db_init], [prepare_db],
      [fill_db], [search_in_db], [write_to_file], [close_db];
    - the [Path] operations the constructor relies on ([exists],
      [suffixes]) and the [str] operations of [fill_db] ([split],
      [replace], line iteration of a text file).

    What is external to the repository and therefore a parameter of the
    development (type classes [Sqlite], [Lzma], [Regex]):
    - the byte image of a database ([serialize], [deserialize], the
      file-backed backup of [sqlite3]);
    - the LZMA codec;
    - the regular-expression engine of [re].

    The SQL the backend issues is a fixed, small fragment.  Its meaning
    is written out directly on the data model: a database is an ordered
    list of named tables, a table is an ordered list of five-column text
    rows ([CREATE TABLE] in [prepare_db] is the only schema the program
    ever creates).  [table_name] and [lang] are treated as bare SQL
    identifiers, compared exactly; the textual substitution of arbitrary
    strings into the statements is not modelled.

    Further conventions: characters are the 8-bit characters of
    [string], and a text file is read one character per byte; a path is
    the text of a normalized [Path]; the file system is a finite map from
    paths to bytes, in which reading a missing file is the only failure;
    an asynchronous method is the computation that awaiting it runs, and
    an asynchronous generator the list of what it yields, or the
    exception it ends with. *)

From Stdlib Require Import Strings.Byte Strings.Ascii.
From stdpp Require Import base option list strings gmap.

Local Open Scope stdpp_scope.

(** ** Python [str] and [pathlib] helpers *)

Module Py.

Definition TAB : ascii := "009"%char.
Definition LF : ascii := "010"%char.
Definition CR : ascii := "013"%char.
Definition DOT : ascii := "."%char.
Definition SLASH : ascii := "/"%char.

(** [s.split(sep)] for a one-character separator: never the empty list. *)
Fixpoint split (sep : ascii) (s : string) : list string :=
  match s with
  | EmptyString => [EmptyString]
  | String c s' =>
      if decide (c = sep) then EmptyString :: split sep s'
      else match split sep s' with
           | h :: t => String c h :: t
           | [] => [String c EmptyString]
           end
  end.

(** [s.replace(c, "")] for a one-character [c]. *)
Fixpoint remove_char (c : ascii) (s : string) : string :=
  match s with
  | EmptyString => EmptyString
  | String d s' =>
      if decide (d = c) then remove_char c s' else String d (remove_char c s')
  end.

(** Universal-newline translation of text mode: CR LF and a lone CR
    are read as LF. *)
Fixpoint universal_newlines (s : string) : string :=
  match s with
  | EmptyString => EmptyString
  | String c s' =>
      if decide (c = CR) then
        match s' with
        | String d s'' =>
            if decide (d = LF) then String LF (universal_newlines s'')
            else String LF (universal_newlines s')
        | EmptyString => String LF EmptyString
        end
      else String c (universal_newlines s')
  end.

(** [for line in file]: the lines of a text, each with its terminating
    LF kept; the text after the last LF is a line when it is not empty. *)
Fixpoint lines_from (cur : string) (s : string) : list string :=
  match s with
  | EmptyString =>
      match cur with EmptyString => [] | _ => [String.rev cur] end
  | String c s' =>
      if decide (c = LF) then String.rev (String c cur) :: lines_from EmptyString s'
      else lines_from (String c cur) s'
  end.
Definition lines (s : string) : list string := lines_from EmptyString s.

(** [s.startswith(prefix)] *)
Fixpoint starts_with (prefix s : string) : bool :=
  match prefix, s with
  | EmptyString, _ => true
  | String x prefix', String y s' =>
      bool_decide (x = y) && starts_with prefix' s'
  | String _ _, EmptyString => false
  end.

(** [sub in s] *)
Fixpoint contains (s sub : string) : bool :=
  starts_with sub s
  || match s with
     | EmptyString => false
     | String _ s' => contains s' sub
     end.

(** [s.endswith(".")] *)
Fixpoint ends_with_dot (s : string) : bool :=
  match s with
  | EmptyString => false
  | String c EmptyString => bool_decide (c = DOT)
  | String _ s' => ends_with_dot s'
  end.

(** [s.lstrip(".")] *)
Fixpoint lstrip_dots (s : string) : string :=
  match s with
  | String c s' => if decide (c = DOT) then lstrip_dots s' else s
  | EmptyString => EmptyString
  end.

(** [Path.name]: the final component of the path. *)
Definition path_name (p : string) : string :=
  default EmptyString (last (split SLASH p)).

(** [Path.suffixes] (CPython 3.12 [pathlib]):
<<
    name = self.name
    if name.endswith('.'): return []
    name = name.lstrip('.')
    return ['.' + suffix for suffix in name.split('.')[1:]]
>> *)
Definition suffixes (p : string) : list string :=
  let name := path_name p in
  if ends_with_dot name then []
  else (String DOT) <$> tail (split DOT (lstrip_dots name)).

End Py.

(** ** SQLite's [LIKE] operator

    [%] matches any run of characters, [_] exactly one character, every
    other character matches itself, letters of the ASCII range without
    regard to case.  The backend never gives an [ESCAPE] character. *)

Module Like.

Definition PERCENT : ascii := "%"%char.
Definition UNDERSCORE : ascii := "_"%char.

Definition lower (c : ascii) : ascii :=
  let n := nat_of_ascii c in
  if (65 <=? n)%nat && (n <=? 90)%nat then ascii_of_nat (n + 32) else c.

Definition ci_eqb (a b : ascii) : bool := bool_decide (lower a = lower b).

Fixpoint like (pat : string) : string → bool :=
  match pat with
  | EmptyString =>
      λ s, match s with EmptyString => true | _ => false end
  | String p pat' =>
      if decide (p = PERCENT) then
        fix skip (s : string) : bool :=
          like pat' s
          || match s with EmptyString => false | String _ s' => skip s' end
      else if decide (p = UNDERSCORE) then
        λ s, match s with EmptyString => false | String _ s' => like pat' s' end
      else
        λ s, match s with
             | EmptyString => false
             | String c s' => ci_eqb p c && like pat' s'
             end
  end.

(** Equality of two texts up to the case of ASCII letters. *)
Fixpoint ci_equal (a b : string) : bool :=
  match a, b with
  | EmptyString, EmptyString => true
  | String x a', String y b' => ci_eqb x y && ci_equal a' b'
  | _, _ => false
  end.


End Like.

(** ** Data model *)

(** One row of the dictionary table, with the columns of the
    [CREATE TABLE] statement of [prepare_db], in their order. *)
Record Row := mkRow {
  eng : string;
  cze : string;
  notes : string;
  special : string;
  author : string
}.

(** Modelled from the spec: the record [Result] of
    [easydict_gtk/backends/backend.py], a module that is not embedded
    here.  The specification describes it as the projection of a row
    with the same five fields in the same order, built positionally; the
    tests read its fields [eng] and [cze]. *)
Record Result := mkResult {
  res_eng : string;
  res_cze : string;
  res_notes : string;
  res_special : string;
  res_author : string
}.

(** The positional construction of a [Result] from an unpacked row. *)
Definition Result_of_row (r : Row) : Result :=
  mkResult (eng r) (cze r) (notes r) (special r) (author r).

(** The in-memory database: the tables in their order of creation, each
    with its rows in their order of insertion. *)
Definition database : Type := list (string * list Row).

(** The exceptions the backend raises or lets through. *)
Inductive exn : Type :=
| FileNotFoundError
| SystemExit
| MimeTypeMismatch (msg : string)
| ValueError (msg : string)
| IndexError (msg : string)
| AttributeError (msg : string)
| OperationalError (msg : string)
| DatabaseError (msg : string)
| LZMAError (msg : string)
| ReError (msg : string).

Inductive outcome (A : Type) : Type :=
| Ok (a : A)
| Raise (e : exn).
Arguments Ok {A} a.
Arguments Raise {A} e.

(** ** The external libraries *)

(** [sqlite3]: the byte image of a database.  [serialize] is
    [Connection.serialize], [deserialize] is [Connection.deserialize]
    ([None] when the bytes are no database image), [backup_to_file d old]
    is the content of a database file that held [old] after
    [Connection.backup] has copied [d] into a connection opened on it. *)
Class Sqlite : Type := {
  serialize : database → list byte;
  deserialize : list byte → option database;
  backup_to_file : database → list byte → list byte
}.

(** [lzma.compress] and [lzma.decompress] ([None]: [LZMAError]). *)
Class Lzma : Type := {
  lzma_compress : list byte → list byte;
  lzma_decompress : list byte → option (list byte)
}.

(** [re]: compilation ([None]: [re.error]) and [Pattern.search]. *)
Inductive re_flag : Type := IGNORECASE.

Class Regex : Type := {
  re_pattern : Type;
  re_compile : string → list re_flag → option re_pattern;
  re_search : re_pattern → string → bool
}.

(** ** State and exceptions *)

(** A computation over a state [S] that returns or raises; what it did to
    the state before it raised stays done. *)
Definition M (S A : Type) : Type := S → outcome A * S.

Global Instance M_ret {S} : MRet (M S) := λ A a s, (Ok a, s).
Global Instance M_bind {S} : MBind (M S) := λ A B f m s,
  match m s with
  | (Ok a, s') => f a s'
  | (Raise e, s') => (Raise e, s')
  end.

Definition raise {S A} (e : exn) : M S A := λ s, (Raise e, s).

(** [try: m except: handler] *)
Definition try_except {S A} (m : M S A) (handler : exn → M S A) : M S A :=
  λ s, match m s with
       | (Ok a, s') => (Ok a, s')
       | (Raise e, s') => handler e s'
       end.

Definition lift_outcome {S A} (o : outcome A) : M S A := λ s, (o, s).

Definition gets {S A} (f : S → A) : M S A := λ s, (Ok (f s), s).

Definition modify {S} (f : S → S) : M S () := λ s, (Ok (), f s).

(** The two operators of the [WHERE] clauses. *)
Inductive sql_op : Type := LIKE | REGEXP.

(** What the program does to its environment, in order. *)
Inductive event : Type :=
| EvExists (path : string)
| EvRead (path : string)
| EvWrite (path : string)
| EvPrint (msg : string)
| EvExecute (sql : string)
| EvCommit.

Record World := mkWorld {
  files : gmap string (list byte);
  events : list event
}.

Definition log (e : event) : M World () :=
  modify (λ w, mkWorld (files w) (events w ++ [e])).

(** [Path.exists()] *)
Definition path_exists (p : string) : M World bool :=
  log (EvExists p);;
  gets (λ w, bool_decide (is_Some (files w !! p))).

(** [Path.read_bytes()] *)
Definition read_bytes (p : string) : M World (list byte) :=
  log (EvRead p);;
  content ← gets (λ w, files w !! p);
  match content with
  | Some b => mret b
  | None => raise FileNotFoundError
  end.

(** [open(p, "w+b").write(b)]: the file is created or truncated. *)
Definition write_bytes (p : string) (b : list byte) : M World () :=
  log (EvWrite p);;
  modify (λ w, mkWorld (<[p := b]> (files w)) (events w)).

(** [open(p)] in text mode, read to its end. *)
Definition read_text (p : string) : M World string :=
  b ← read_bytes p;
  mret (Py.universal_newlines (String.string_of_list_byte b)).

Definition print (msg : string) : M World () := log (EvPrint msg).

(** ** The store object *)

(** [self.conn]: not yet assigned, a live connection on an in-memory
    database (with [REGEXP] registered), or a closed connection. *)
Inductive handle : Type :=
| Unset
| Open (d : database)
| Closed.

Record Store := mkStore {
  memory_only : bool;
  table_name : string;
  lzma_compressed : bool;
  db_file : string;
  file_db_bytes : option (list byte);
  conn : handle
}.

Definition with_conn (h : handle) (s : Store) : Store :=
  mkStore (memory_only s) (table_name s) (lzma_compressed s) (db_file s)
          (file_db_bytes s) h.

Definition with_file_db_bytes (b : list byte) (s : Store) : Store :=
  mkStore (memory_only s) (table_name s) (lzma_compressed s) (db_file s)
          (Some b) (conn s).

(** A method runs on the object and the world. *)
Record Machine := mkMachine {
  self : Store;
  world : World
}.

Definition Method (A : Type) : Type := M Machine A.

Definition get_self : Method Store := gets self.

Definition update_self (f : Store → Store) : Method () :=
  modify (λ mc, mkMachine (f (self mc)) (world mc)).

Definition io {A} (m : M World A) : Method A :=
  λ mc, let '(r, w) := m (world mc) in (r, mkMachine (self mc) w).

(** The database behind [self.conn]. *)
Definition live_db : Method database :=
  s ← get_self;
  match conn s with
  | Open d => mret d
  | Unset => raise (AttributeError "'SQLiteBackend' object has no attribute 'conn'")
  | Closed => raise (ValueError "no active connection")
  end.

(** ** The SQL fragment of the backend *)

Module Sql.

Fixpoint lookup_table (name : string) (d : database) : option (list Row) :=
  match d with
  | [] => None
  | (n, rows) :: d' =>
      if decide (n = name) then Some rows else lookup_table name d'
  end.


(** [CREATE TABLE if not exists name (eng TEXT, cze TEXT, notes TEXT,
    special TEXT, author TEXT)] *)
Definition create_table_if_not_exists (name : string) (d : database)
  : database :=
  match lookup_table name d with
  | Some _ => d
  | None => d ++ [(name, [])]
  end.

Fixpoint append_rows (name : string) (new : list Row) (d : database)
  : database :=
  match d with
  | [] => []
  | (n, rows) :: d' =>
      if decide (n = name) then (n, rows ++ new) :: d'
      else (n, rows) :: append_rows name new d'
  end.

(** [INSERT INTO name VALUES (?,?,?,?,?)], once per parameter tuple.
    The statement is compiled before the first tuple is bound, so a
    missing table is an error also for an empty parameter list. *)
Definition insert_many (name : string) (new : list Row) (d : database)
  : outcome database :=
  match lookup_table name d with
  | Some _ => Ok (append_rows name new d)
  | None => Raise (OperationalError ("no such table: " +:+ name))
  end.

Definition column (lang : string) : option (Row → string) :=
  if decide (lang = "eng") then Some eng
  else if decide (lang = "cze") then Some cze
  else if decide (lang = "notes") then Some notes
  else if decide (lang = "special") then Some special
  else if decide (lang = "author") then Some author
  else None.

(** The rows for which the [WHERE] test holds, in table order; a test
    that fails aborts the statement. *)
Fixpoint filter_rows (test : Row → outcome bool) (rows : list Row)
  : outcome (list Row) :=
  match rows with
  | [] => Ok []
  | r :: rows' =>
      match test r with
      | Raise e => Raise e
      | Ok b =>
          match filter_rows test rows' with
          | Raise e => Raise e
          | Ok rs => Ok (if b then r :: rs else rs)
          end
      end
  end.

(** [SELECT * FROM name WHERE lang <test>] *)
Definition select_where (name lang : string) (test : string → outcome bool)
    (d : database) : outcome (list Row) :=
  match lookup_table name d with
  | None => Raise (OperationalError ("no such table: " +:+ name))
  | Some rows =>
      match column lang with
      | None => Raise (OperationalError ("no such column: " +:+ lang))
      | Some col => filter_rows (λ r, test (col r)) rows
      end
  end.

(** [Connection.backup]: the target becomes a copy of the source. *)
Definition backup (source target : database) : database := source.

End Sql.

(** ** The backend *)

Module SQLiteBackend.
Section Backend.

Context `{!Sqlite, !Lzma, !Regex}.

Definition FILE_DB : string := "easydict_gtk/dict_data/sqlite_eng-cze.db.lzma".
Definition DEFAULT_TABLE : string := "eng_cze".
Definition DEFAULT_RAW_FILE : string := "easydict_gtk/data/en-cs.txt".

Definition MIMETYPE_MESSAGE : string :=
  "SQLiteBackend can take only SQLite *.db files or *.lzma files, which are LZMA compressed db files.".

(** [regexp(expr, item)] *)
Definition regexp (expr item : string) : outcome bool :=
  match re_compile expr [IGNORECASE] with
  | Some reg => Ok (re_search reg item)
  | None => Raise (ReError expr)
  end.


(** [X LIKE Y] and [X REGEXP Y].  SQLite evaluates [X REGEXP Y] as the
    call [regexp(Y, X)] of the function registered under that name; an
    exception of the function fails the statement. *)
Definition where_test (op : sql_op) (param value : string) : outcome bool :=
  match op with
  | LIKE => Ok (Like.like param value)
  | REGEXP =>
      match regexp param value with
      | Ok b => Ok b
      | Raise _ =>
          Raise (OperationalError "user-defined function raised exception")
      end
  end.

Definition select_sql (table lang : string) (op : sql_op) : string :=
  "SELECT * FROM " +:+ table +:+ " WHERE " +:+ lang +:+
  match op with LIKE => " LIKE ?" | REGEXP => " REGEXP ?" end.

Definition create_sql (table : string) : string :=
  "CREATE TABLE if not exists " +:+ table +:+
  " (eng TEXT, cze TEXT, notes TEXT, special TEXT, author TEXT)".

Definition insert_sql (table : string) : string :=
  "INSERT INTO " +:+ table +:+ " VALUES (?,?,?,?,?)".

(** [self.conn.execute(...)], [executemany], [commit] *)
Definition execute_select (table lang : string) (op : sql_op)
    (param : string) : Method (list Row) :=
  d ← live_db;
  io (log (EvExecute (select_sql table lang op)));;
  lift_outcome (Sql.select_where table lang (where_test op param) d).

Definition execute_create (table : string) : Method () :=
  d ← live_db;
  io (log (EvExecute (create_sql table)));;
  update_self (with_conn (Open (Sql.create_table_if_not_exists table d))).

Definition executemany_insert (table : string) (data : list Row)
  : Method () :=
  d ← live_db;
  io (log (EvExecute (insert_sql table)));;
  d' ← lift_outcome (Sql.insert_many table data d);
  update_self (with_conn (Open d')).

Definition commit : Method () :=
  _ ← live_db;
  io (log EvCommit).

(** [__init__(self, file, table_name, memory_only)] *)
Definition init (file : string) (table_name : string) (memory_only : bool)
  : M World Store :=
  try_except
    (found ← path_exists file;
     if negb found then raise FileNotFoundError else mret ())
    (λ e, match e with
          | FileNotFoundError =>
              print ("File " +:+ file +:+ " not found.");;
              raise SystemExit
          | _ => raise e
          end);;
  if bool_decide (Py.suffixes file ≠ [".db"; ".lzma"])
     && bool_decide (Py.suffixes file ≠ [".db"])
  then raise (MimeTypeMismatch MIMETYPE_MESSAGE)
  else
    mret (mkStore memory_only table_name
            (bool_decide (Py.suffixes file = [".db"; ".lzma"]))
            file None Unset).

(** The end of the connector of [db_init]: an empty buffer leaves the
    fresh in-memory database as it is, any other is deserialized. *)
Definition load_image (image : list byte) : outcome database :=
  match image with
  | [] => Ok []
  | _ :: _ =>
      match deserialize image with
      | Some d => Ok d
      | None => Raise (DatabaseError "file is not a database")
      end
  end.

(** [db_init(self)] *)
Definition db_init : Method () :=
  s ← get_self;
  raw ← io (read_bytes (db_file s));
  update_self (with_file_db_bytes raw);;
  image ← (if lzma_compressed s then
             match lzma_decompress raw with
             | Some b => update_self (with_file_db_bytes b);; mret b
             | None => raise (LZMAError "Input format not supported by decoder")
             end
           else mret raw);
  d ← lift_outcome (load_image image);
  update_self (with_conn (Open d)).

(** [write_to_file(self)] *)
Definition write_to_file : Method () :=
  s ← get_self;
  if lzma_compressed s then
    source ← live_db;
    let temp_sqlite_db := Sql.backup source [] in
    io (write_bytes (db_file s) (lzma_compress (serialize temp_sqlite_db)))
  else
    source ← live_db;
    old ← io (gets (λ w, default [] (files w !! db_file s)));
    io (write_bytes (db_file s) (backup_to_file source old)).

(** [prepare_db(self)] *)
Definition prepare_db : Method () :=
  s ← get_self;
  execute_create (table_name s);;
  commit;;
  if negb (memory_only s) then write_to_file else mret ().

Definition INDEX_ERROR : exn := IndexError "list index out of range".

(** One line of the raw file: [line.split("\t")] and the five fields
    [line_list[0]] to [line_list[4]], the last without its newlines. *)
Definition parse_line (line : string) : outcome Row :=
  let line_list := Py.split Py.TAB line in
  match line_list !! 0%nat, line_list !! 1%nat, line_list !! 2%nat,
        line_list !! 3%nat, line_list !! 4%nat with
  | Some f0, Some f1, Some f2, Some f3, Some f4 =>
      Ok (mkRow f0 f1 f2 f3 (Py.remove_char Py.LF f4))
  | _, _, _, _, _ => Raise INDEX_ERROR
  end.

(** The loop over the lines, filling [data]. *)
Fixpoint parse_lines (lines : list string) : outcome (list Row) :=
  match lines with
  | [] => Ok []
  | line :: rest =>
      match parse_line line with
      | Raise e => Raise e
      | Ok r =>
          match parse_lines rest with
          | Raise e => Raise e
          | Ok rs => Ok (r :: rs)
          end
      end
  end.

(** [fill_db(self, raw_file)] *)
Definition fill_db (raw_file : option string) : Method () :=
  s ← get_self;
  let raw_file := default DEFAULT_RAW_FILE raw_file in
  found ← io (path_exists raw_file);
  if negb found then raise FileNotFoundError
  else
    text ← io (read_text raw_file);
    data ← lift_outcome (parse_lines (Py.lines text));
    executemany_insert (table_name s) data;;
    commit;;
    if negb (memory_only s) then write_to_file else mret ().

(** [search_in_db(self, word, lang, search_type)]: the results the
    generator yields, or the exception it ends with. *)
Definition search_in_db (word lang search_type : string)
  : Method (list Result) :=
  s ← get_self;
  sql ← (if decide (search_type = "fulltext") then
           mret (LIKE, "%" +:+ word +:+ "%")
         else if decide (search_type = "whole_word") then
           mret (REGEXP, "\b" +:+ word +:+ "\b")
         else if decide (search_type = "first_chars") then
           mret (LIKE, word +:+ "%")
         else raise (ValueError "Unknown search_type argument."));
  rows ← execute_select (table_name s) lang sql.1 sql.2;
  mret (Result_of_row <$> rows).

(** [close_db(self)] *)
Definition close_db : Method () :=
  s ← get_self;
  match conn s with
  | Unset =>
      raise (AttributeError "'SQLiteBackend' object has no attribute 'conn'")
  | _ => update_self (with_conn Closed)
  end.

(** *** Clients of the store *)

(** One call of a method of the store by its client. *)
Inductive call : Type :=
| CallDbInit
| CallPrepareDb
| CallFillDb (raw_file : option string)
| CallSearchInDb (word lang search_type : string)
| CallWriteToFile
| CallCloseDb.

(** What the client sees of a call: the results it was given (none for
    the methods that return nothing) or the exception. *)
Definition run_call (c : call) : Method (list Result) :=
  match c with
  | CallDbInit => db_init;; mret []
  | CallPrepareDb => prepare_db;; mret []
  | CallFillDb raw_file => fill_db raw_file;; mret []
  | CallSearchInDb word lang search_type => search_in_db word lang search_type
  | CallWriteToFile => write_to_file;; mret []
  | CallCloseDb => close_db;; mret []
  end.

(** A client that goes on after an exception, as one that catches it. *)
Fixpoint run_calls (cs : list call) (mc : Machine)
  : list (outcome (list Result)) * Machine :=
  match cs with
  | [] => ([], mc)
  | c :: cs' =>
      let '(r, mc') := run_call c mc in
      let '(rs, mc'') := run_calls cs' mc' in
      (r :: rs, mc'')
  end.

(** The results a run of [search_in_db] has yielded. *)
Definition yielded {A S} (run : outcome (list A) * S) : list A :=
  match run.1 with
  | Ok results => results
  | Raise _ => []
  end.

(** The bytes [write_to_file] leaves in a backing file that held [old],
    for the database [d]. *)
Definition flushed_bytes (s : Store) (d : database) (old : list byte)
  : list byte :=
  if lzma_compressed s then lzma_compress (serialize d)
  else backup_to_file d old.

Definition add_events (es : list event) (w : World) : World :=
  mkWorld (files w) (events w ++ es).

(** The world after [write_to_file] for the database [d]. *)
Definition flushed (s : Store) (d : database) (w : World) : World :=
  mkWorld
    (<[db_file s := flushed_bytes s d (default [] (files w !! db_file s))]>
       (files w))
    (events w ++ [EvWrite (db_file s)]).

(** The world after a mutator has executed its statement, committed
    and, unless the store is memory-only, written the file. *)
Definition mutated (s : Store) (sql : string) (d : database) (w : World)
  : World :=
  let w' := add_events [EvExecute sql; EvCommit] w in
  if memory_only s then w' else flushed s d w'.

(** The database a backing file holds for a store: what [db_init]
    would load from it. *)
Definition stored_database (s : Store) (content : list byte)
  : option database :=
  image ← (if lzma_compressed s then lzma_decompress content
           else Some content);
  match load_image image with
  | Ok d => Some d
  | Raise _ => None
  end.

(** A store as the constructor leaves it: a path with one of the two
    suffix patterns, and the flag that tells which. *)
Definition constructed (s : Store) : Prop :=
  (Py.suffixes (db_file s) = [".db"; ".lzma"]
   ∨ Py.suffixes (db_file s) = [".db"])
  ∧ lzma_compressed s
    = bool_decide (Py.suffixes (db_file s) = [".db"; ".lzma"]).

(** *** Two stores on the two forms of a backing file *)

(** The configuration of a store, apart from its connection. *)
Definition same_config (s s' : Store) : Prop :=
  memory_only s' = memory_only s
  ∧ table_name s' = table_name s
  ∧ lzma_compressed s' = lzma_compressed s
  ∧ db_file s' = db_file s.

(** The two backing files exist and hold the same database. *)
Definition same_stored (mc mu : Machine) : Prop :=
  ∃ bc bu d,
    files (world mc) !! db_file (self mc) = Some bc
    ∧ files (world mu) !! db_file (self mu) = Some bu
    ∧ stored_database (self mc) bc = Some d
    ∧ stored_database (self mu) bu = Some d.

(** Matching fixtures: a store on an LZMA file and a store on a database
    file, configured alike and with the same database in memory, whose
    backing files hold the same database, in worlds that agree on all
    other files. *)
Definition matching (mc mu : Machine) : Prop :=
  lzma_compressed (self mc) = true
  ∧ lzma_compressed (self mu) = false
  ∧ memory_only (self mc) = memory_only (self mu)
  ∧ table_name (self mc) = table_name (self mu)
  ∧ conn (self mc) = conn (self mu)
  ∧ same_stored mc mu
  ∧ ∀ p, p ≠ db_file (self mc) → p ≠ db_file (self mu) →
         files (world mc) !! p = files (world mu) !! p.

(** The raw file of a [fill_db] is neither of the two backing files. *)
Definition reads_other_file (pc pu : string) (c : call) : Prop :=
  match c with
  | CallFillDb raw_file =>
      default DEFAULT_RAW_FILE raw_file ≠ pc
      ∧ default DEFAULT_RAW_FILE raw_file ≠ pu
  | _ => True
  end.

(** What the program relies on from the two external codecs:
    a serialized database loads as that database, a file-backed backup
    over a loadable database file as well, and decompression undoes
    compression. *)
Class FaithfulImages : Prop := {
  load_serialize : ∀ d, load_image (serialize d) = Ok d;
  load_backup : ∀ d old d0,
    load_image old = Ok d0 → load_image (backup_to_file d old) = Ok d;
  decompress_compress : ∀ b, lzma_decompress (lzma_compress b) = Some b
}.

End Backend.
End SQLiteBackend.

(** ** Executable stand-ins for the external libraries

    Small total implementations of the three interfaces, on which the
    model can be run at concrete inputs.  They are no part of the
    theorems on the backend, which hold for every implementation. *)

Module Mock.

(** *** A database image: the bits of a numbering of databases *)

Definition row_to_tuple (r : Row) : string * string * string * string * string :=
  (eng r, cze r, notes r, special r, author r).

Definition row_of_tuple (t : string * string * string * string * string) : Row :=
  let '(a, b, c, d, e) := t in mkRow a b c d e.

Global Instance Row_eq_dec : EqDecision Row.
Proof. solve_decision. Defined.

Global Instance Row_countable : Countable Row.
Proof.
  apply (inj_countable' row_to_tuple row_of_tuple).
  by intros [].
Defined.

Fixpoint bits_of_pos (p : positive) : list byte :=
  match p with
  | xH => []
  | xO p' => x00 :: bits_of_pos p'
  | xI p' => x01 :: bits_of_pos p'
  end.

Fixpoint pos_of_bits (b : list byte) : positive :=
  match b with
  | [] => xH
  | x00 :: b' => xO (pos_of_bits b')
  | _ :: b' => xI (pos_of_bits b')
  end.

Definition MAGIC : byte := x53.

(** An image: the magic byte, a change counter, the bits. *)
Definition mock_serialize (d : database) : list byte :=
  match d with
  | [] => []
  | _ => MAGIC :: x00 :: bits_of_pos (encode d)
  end.

Definition mock_deserialize (b : list byte) : option database :=
  match b with
  | x53 :: _ :: bits => decode (pos_of_bits bits)
  | _ => None
  end.

(** A file-backed backup advances the change counter of the file, so
    that the image depends on what the file held before. *)
Definition next_counter (old : list byte) : byte :=
  match old with
  | _ :: x01 :: _ => x02
  | _ => x01
  end.

Definition mock_backup_to_file (d : database) (old : list byte) : list byte :=
  MAGIC :: next_counter old :: bits_of_pos (encode d).

Global Instance sqlite : Sqlite := {|
  serialize := mock_serialize;
  deserialize := mock_deserialize;
  backup_to_file := mock_backup_to_file
|}.

(** *** A codec: one header byte before the payload *)

Definition mock_compress (b : list byte) : list byte := xfd :: b.

Definition mock_decompress (b : list byte) : option (list byte) :=
  match b with
  | xfd :: payload => Some payload
  | _ => None
  end.

Global Instance lzma : Lzma := {|
  lzma_compress := mock_compress;
  lzma_decompress := mock_decompress
|}.

(** *** A matcher for the patterns [\bword\b] over a literal word *)

Definition is_word_char (c : ascii) : bool :=
  let n := nat_of_ascii c in
  ((48 <=? n)%nat && (n <=? 57)%nat)
  || ((65 <=? n)%nat && (n <=? 90)%nat)
  || ((97 <=? n)%nat && (n <=? 122)%nat)
  || bool_decide (n = 95%nat).

Fixpoint all_word_chars (s : string) : bool :=
  match s with
  | EmptyString => true
  | String c s' => is_word_char c && all_word_chars s'
  end.

(** The text between a leading and a trailing [\b], if it is a
    non-empty run of word characters. *)
Fixpoint strip_trailing_boundary (s : string) : option string :=
  match s with
  | String "\" (String "b" EmptyString) => Some EmptyString
  | String c s' => String c <$> strip_trailing_boundary s'
  | EmptyString => None
  end.

Definition mock_compile (expr : string) (flags : list re_flag)
  : option string :=
  match expr with
  | String "\" (String "b" rest) =>
      match strip_trailing_boundary rest with
      | Some (String c w) =>
          if all_word_chars (String c w) then Some (String c w) else None
      | _ => None
      end
  | _ => None
  end.

(** What is left of [s] after a prefix equal to [w] up to case. *)
Fixpoint match_prefix (w s : string) : option string :=
  match w, s with
  | EmptyString, _ => Some s
  | String x w', String y s' =>
      if Like.ci_eqb x y then match_prefix w' s' else None
  | String _ _, EmptyString => None
  end.

Definition starts_with_word_char (s : string) : bool :=
  match s with
  | String c _ => is_word_char c
  | EmptyString => false
  end.

Fixpoint search_word (after_word_char : bool) (w s : string) : bool :=
  (negb after_word_char
   && match match_prefix w s with
      | Some rest => negb (starts_with_word_char rest)
      | None => false
      end)
  || match s with
     | EmptyString => false
     | String c s' => search_word (is_word_char c) w s'
     end.

Global Instance regex : Regex := {|
  re_pattern := string;
  re_compile := mock_compile;
  re_search := search_word false
|}.

(** *** The fixture of the test-suite *)

Definition dummy_data : string :=
  "test_eng	test_cze	note	special	author
eng	cze	note	special	author
english	czech	notes	specials	authors".

Definition raw_file : string := "tmp/raw_file.txt".
Definition db_path : string := "tmp/test.db".
Definition lzma_path : string := "tmp/test.db.lzma".

(** [db_file] and [lzma_file] of the tests: an empty database file, an
    LZMA file of empty content, and the raw file. *)
Definition tmp_path : World :=
  mkWorld (<[raw_file := String.list_byte_of_string dummy_data]>
           (<[db_path := []]>
            (<[lzma_path := mock_compress []]> ∅)))
          [].

End Mock.

(** ** The states of the test-suite *)

Module Fixture.

Import SQLiteBackend Mock.

(** The machine a constructor and a method leave behind. *)
Definition machine_after {A} (ctor : M World Store) (m : Method A)
    (w : World) : option Machine :=
  match ctor w with
  | (Ok s, w') => Some (m (mkMachine s w')).2
  | (Raise _, _) => None
  end.

Definition no_store : Store := mkStore true DEFAULT_TABLE false db_path None Unset.

(** The fixture [adb]: a store on the empty file, initialized. *)
Definition adb (path : string) (memory_only : bool) : Machine :=
  default (mkMachine no_store tmp_path)
    (machine_after (init path DEFAULT_TABLE memory_only) db_init tmp_path).

Definition prepared (path : string) (memory_only : bool) : Machine :=
  (prepare_db (adb path memory_only)).2.

Definition filled (path : string) (memory_only : bool) : Machine :=
  (fill_db (Some raw_file) (prepared path memory_only)).2.

Definition row_test_eng : Row := mkRow "test_eng" "test_cze" "note" "special" "author".
Definition row_eng : Row := mkRow "eng" "cze" "note" "special" "author".
Definition row_english : Row := mkRow "english" "czech" "notes" "specials" "authors".





(** The calls of the test on a real file: prepare, search, fill,
    search, close, and a second initialization with a search. *)
Definition session : list call :=
  [CallPrepareDb;
   CallSearchInDb "english" "eng" "whole_word";
   CallFillDb (Some raw_file);
   CallSearchInDb "english" "eng" "whole_word";
   CallCloseDb;
   CallSearchInDb "english" "eng" "whole_word";
   CallDbInit;
   CallSearchInDb "eng" "eng" "first_chars";
   CallSearchInDb "eng" "eng" "unknown"].

(** A world with a text file next to the fixture files. *)
Definition with_text_file : World :=
  mkWorld (<["tmp/dict.txt" := String.list_byte_of_string dummy_data]>
             (files tmp_path)) [].

End Fixture.

(** ** Raw files as the data preparation writes them *)

Module RawFile.

(** No occurrence of the character [c] in [s]. *)
Fixpoint free_of (c : ascii) (s : string) : bool :=
  match s with
  | EmptyString => true
  | String d s' => negb (bool_decide (d = c)) && free_of c s'
  end.





End RawFile.

(** The methods a client of the store calls; [write_to_file] is the
    helper of the two mutators. *)
Definition api_call (c : SQLiteBackend.call) : bool :=
  match c with
  | SQLiteBackend.CallWriteToFile => false
  | _ => true
  end.

(** The three modes of [search_in_db] with their operator and the
    parameter they bind. *)
Definition mode_statement (word search_type : string) (op : sql_op)
    (param : string) : Prop :=
  (search_type = "fulltext" ∧ op = LIKE ∧ param = "%" +:+ word +:+ "%")
  ∨ (search_type = "whole_word" ∧ op = REGEXP
     ∧ param = "\b" +:+ word +:+ "\b")
  ∨ (search_type = "first_chars" ∧ op = LIKE ∧ param = word +:+ "%").


(** SQLite's default limit on the length of a [LIKE] pattern; longer
    patterns are refused, which the model of [LIKE] leaves out. *)
Definition LIKE_PATTERN_LIMIT : Z := 50000.

Definition within_like_limit (word : string) : Prop :=
  (Z.of_nat (String.length word) + 2 ≤ LIKE_PATTERN_LIMIT)%Z.

(** The backing file of a store holds the database of its connection,
    whenever the connection is live. *)
Definition synced `{!Sqlite, !Lzma} (mc : Machine) : Prop :=
  ∀ d, conn (self mc) = Open d →
       ∃ content, files (world mc) !! db_file (self mc) = Some content
                  ∧ SQLiteBackend.stored_database (self mc) content = Some d.

(** A file name in a directory: the text of [Path(dir) / name]. *)
Definition in_dir (dir name : string) : string :=
  dir +:+ String Py.SLASH name.

(** A stem of a file name: not empty, without dot and without slash. *)
Definition plain_stem (stem : string) : Prop :=
  stem ≠ EmptyString
  ∧ RawFile.free_of Py.DOT stem = true
  ∧ RawFile.free_of Py.SLASH stem = true.


(** ** Further states of the test-suite *)

Module Examples.

Import SQLiteBackend Mock Fixture.

(** A store as the constructor leaves it on the empty database file. *)
Definition fresh_store (path : string) (memory_only compressed : bool)
    : Store :=
  mkStore memory_only DEFAULT_TABLE compressed path None Unset.



(** The database of the filled fixture. *)
Definition filled_database : database :=
  [(DEFAULT_TABLE, [row_test_eng; row_eng; row_english])].

(** A store on a file that is not there. *)
Definition store_without_file : Machine :=
  mkMachine (fresh_store "tmp/gone.db.lzma" true true) tmp_path.

(** A world with a database file whose name has a second dot. *)
Definition with_dotted_name : World :=
  mkWorld (<["tmp/my.dict.db" := []]> (files tmp_path)) [].

End Examples.

(** * Properties *)

Import SQLiteBackend.

(** Unfolds the plumbing of the state-and-exception monad. *)
Ltac unfold_monad :=
  unfold mbind, mret, M_bind, M_ret, raise, try_except, lift_outcome,
    gets, modify, io, get_self, update_self, print, log in *.

Ltac run_monad := repeat (unfold_monad; simpl in *).

(** Unfolds the methods down to the monad. *)
Ltac unfold_methods :=
  unfold run_call, db_init, prepare_db, fill_db, search_in_db, close_db,
    write_to_file, execute_select, execute_create, executemany_insert,
    commit, live_db, read_text, read_bytes, write_bytes, path_exists in *.

Section SearchModes.

Context `{!Sqlite, !Lzma, !Regex}.

(** C6 (as the code has it).  A search with a mode other than
    "fulltext", "whole_word" and "first_chars" raises [ValueError] with
    the fixed message "Unknown search_type argument."; the store and the
    world are left exactly as they were, so no statement was executed,
    and nothing has been yielded.  The message does not depend on the
    mode. *)
Theorem search_in_db_unknown_mode (word lang search_type : string)
    (mc : Machine) :
  search_type ≠ "fulltext" →
  search_type ≠ "whole_word" →
  search_type ≠ "first_chars" →
  search_in_db word lang search_type mc
    = (Raise (ValueError "Unknown search_type argument."), mc)
  ∧ yielded (search_in_db word lang search_type mc) = [].
Proof.
  intros Hf Hw Hc.
  assert (search_in_db word lang search_type mc
          = (Raise (ValueError "Unknown search_type argument."), mc)) as E.
  { unfold search_in_db. run_monad.
    repeat (case_decide; [congruence|]). done. }
  split; [exact E|]. unfold yielded. by rewrite E.
Qed.

End SearchModes.

(** A run of C6: the mode "unknown" of the test-suite. *)
Lemma search_in_db_unknown_mode_witness :
  search_in_db "ehm" "eng" "unknown" (Fixture.filled Mock.db_path true)
    = (Raise (ValueError "Unknown search_type argument."),
       Fixture.filled Mock.db_path true)
  ∧ yielded (search_in_db "ehm" "eng" "unknown"
               (Fixture.filled Mock.db_path true)) = [].
Proof.
  apply (search_in_db_unknown_mode "ehm" "eng" "unknown"); discriminate.
Defined.

(** C6 as stated fails: the exception of the mode "bogus" does not name
    that mode. *)
Lemma search_in_db_unknown_mode_not_named :
  ∃ msg,
    (search_in_db "ehm" "eng" "bogus" (Fixture.filled Mock.db_path true)).1
      = Raise (ValueError msg)
    ∧ Py.contains msg "bogus" = false.
Proof. eexists. split; [vm_compute; reflexivity | vm_compute; reflexivity]. Qed.

Section Constructor.

Context `{!Sqlite, !Lzma, !Regex}.

Lemma init_missing_file (file table : string) (memory_only : bool)
    (w : World) :
  files w !! file = None →
  init file table memory_only w
    = (Raise SystemExit,
       mkWorld (files w)
         (events w ++ [EvExists file]
            ++ [EvPrint ("File " +:+ file +:+ " not found.")])).
Proof.
  intros Hnone. unfold init, path_exists. run_monad.
  rewrite Hnone. rewrite bool_decide_eq_false_2 by (intros [? ?]; done).
  simpl. by rewrite <- app_assoc.
Qed.

(** C7 (as the code has it).  For a path that exists and whose suffixes
    are neither [.db] nor [.db], [.lzma], the constructor raises
    [MimeTypeMismatch] with its descriptive message; the existence
    check is the one access to the file system it has made, no byte of
    a file has been read or written. *)
Theorem init_unrecognized_suffix (file table : string) (memory_only : bool)
    (w : World) :
  Py.suffixes file ≠ [".db"; ".lzma"] →
  Py.suffixes file ≠ [".db"] →
  is_Some (files w !! file) →
  init file table memory_only w
    = (Raise (MimeTypeMismatch MIMETYPE_MESSAGE),
       mkWorld (files w) (events w ++ [EvExists file])).
Proof.
  intros Hs1 Hs2 Hsome. unfold init, path_exists. run_monad.
  rewrite bool_decide_eq_true_2 by done. simpl.
  rewrite !bool_decide_eq_true_2 by done. done.
Qed.

Lemma init_recognized_suffix (file table : string) (memory_only : bool)
    (w : World) :
  Py.suffixes file = [".db"; ".lzma"] ∨ Py.suffixes file = [".db"] →
  is_Some (files w !! file) →
  init file table memory_only w
    = (Ok (mkStore memory_only table
             (bool_decide (Py.suffixes file = [".db"; ".lzma"]))
             file None Unset),
       mkWorld (files w) (events w ++ [EvExists file])).
Proof.
  intros Hsuf Hsome. unfold init, path_exists. run_monad.
  rewrite bool_decide_eq_true_2 by done. simpl.
  destruct Hsuf as [E|E]; rewrite E.
  - rewrite (bool_decide_eq_false_2 (_ ≠ [".db"; ".lzma"])) by (intros ?; done).
    done.
  - rewrite (bool_decide_eq_false_2 (_ ≠ [".db"])) by (intros ?; done).
    rewrite andb_false_r. done.
Qed.

End Constructor.

(** A run of C7: a text file that exists. *)
Lemma init_unrecognized_suffix_witness :
  init "tmp/dict.txt" "eng_cze" true Fixture.with_text_file
    = (Raise (MimeTypeMismatch MIMETYPE_MESSAGE),
       mkWorld (files Fixture.with_text_file) [EvExists "tmp/dict.txt"]).
Proof.
  apply (init_unrecognized_suffix "tmp/dict.txt" "eng_cze" true
           Fixture.with_text_file).
  - vm_compute. discriminate.
  - vm_compute. discriminate.
  - vm_compute. eauto.
Defined.

(** C7 as stated fails: the constructor has looked the path up in the
    file system before it judges the suffix, and for a path that does not
    exist it ends the process instead of raising the configuration
    error. *)
Lemma init_checks_existence_first :
  events (init "tmp/dict.txt" "eng_cze" true Fixture.with_text_file).2
    = [EvExists "tmp/dict.txt"]
  ∧ (init "tmp/none.txt" "eng_cze" true Fixture.with_text_file).1
    = Raise SystemExit.
Proof. split; vm_compute; reflexivity. Qed.

Section BulkLoad.

Context `{!Sqlite, !Lzma, !Regex}.





End BulkLoad.


(** ** The methods on a live connection *)

Section LiveConnection.

Context `{!Sqlite, !Lzma, !Regex}.






Lemma live_db_open (mc : Machine) (d : database) :
  conn (self mc) = Open d → live_db mc = (Ok d, mc).
Proof. intros E. unfold live_db. run_monad. by rewrite E. Qed.

Lemma write_to_file_open (mc : Machine) (d : database) :
  conn (self mc) = Open d →
  write_to_file mc
  = (Ok (), mkMachine (self mc) (flushed (self mc) d (world mc))).
Proof.
  intros E. unfold write_to_file, flushed, flushed_bytes, write_bytes, live_db.
  run_monad. destruct (lzma_compressed (self mc)); simpl; by rewrite E.
Qed.

Lemma prepare_db_open (mc : Machine) (d : database) :
  conn (self mc) = Open d →
  let d' := Sql.create_table_if_not_exists (table_name (self mc)) d in
  prepare_db mc
  = (Ok (),
     mkMachine (with_conn (Open d') (self mc))
       (mutated (self mc) (create_sql (table_name (self mc))) d' (world mc))).
Proof.
  intros E d'. unfold prepare_db, execute_create, commit, live_db.
  run_monad. rewrite E. simpl.
  unfold mutated, add_events. destruct (memory_only (self mc)); simpl.
  - by rewrite <- app_assoc.
  - rewrite (write_to_file_open _ d') by reflexivity. simpl.
    unfold flushed, flushed_bytes. simpl. by rewrite <- !app_assoc.
Qed.

(** The whole of [fill_db], case by case. *)
Lemma fill_db_run (raw_file : option string) (mc : Machine) :
  fill_db raw_file mc
  = let p := default DEFAULT_RAW_FILE raw_file in
    match files (world mc) !! p with
    | None =>
        (Raise FileNotFoundError,
         mkMachine (self mc) (add_events [EvExists p] (world mc)))
    | Some content =>
        let w := add_events [EvExists p; EvRead p] (world mc) in
        match parse_lines
                (Py.lines
                   (Py.universal_newlines (String.string_of_list_byte content)))
        with
        | Raise e => (Raise e, mkMachine (self mc) w)
        | Ok data =>
            match conn (self mc) with
            | Unset =>
                (Raise (AttributeError
                          "'SQLiteBackend' object has no attribute 'conn'"),
                 mkMachine (self mc) w)
            | Closed =>
                (Raise (ValueError "no active connection"),
                 mkMachine (self mc) w)
            | Open d =>
                match Sql.insert_many (table_name (self mc)) data d with
                | Raise e =>
                    (Raise e,
                     mkMachine (self mc)
                       (add_events
                          [EvExecute (insert_sql (table_name (self mc)))] w))
                | Ok d' =>
                    (Ok (),
                     mkMachine (with_conn (Open d') (self mc))
                       (mutated (self mc) (insert_sql (table_name (self mc)))
                          d' w))
                end
            end
        end
    end.
Proof.
  cbv zeta. unfold fill_db, path_exists, read_text, read_bytes, add_events.
  run_monad.
  destruct (files (world mc) !! default DEFAULT_RAW_FILE raw_file)
    as [content|] eqn:Efile.
  2:{ rewrite bool_decide_eq_false_2 by (intros [? ?]; done). done. }
  rewrite bool_decide_eq_true_2 by eauto. simpl. rewrite Efile. simpl.
  rewrite <- app_assoc. simpl.
  destruct (parse_lines _) as [data|e]; [|done].
  unfold executemany_insert, commit, live_db. run_monad.
  destruct (conn (self mc)) as [|d|] eqn:Econn; simpl; [done| |done].
  destruct (Sql.insert_many (table_name (self mc)) data d) as [d'|e]; simpl;
    [|done].
  unfold mutated, add_events. destruct (memory_only (self mc)); simpl.
  - by rewrite <- !app_assoc.
  - rewrite (write_to_file_open _ d') by reflexivity.
    unfold flushed, flushed_bytes. simpl. by rewrite <- !app_assoc.
Qed.

End LiveConnection.

Section SchemaPreparation.

Context `{!Sqlite, !Lzma, !Regex}.


End SchemaPreparation.


Section Search.

Context `{!Sqlite, !Lzma, !Regex}.

Lemma filter_rows_total (f : Row → bool) (rows : list Row) :
  Sql.filter_rows (λ r, Ok (f r)) rows = Ok (filter (λ r, f r = true) rows).
Proof.
  induction rows as [|r rows IH]; simpl; [done|]. rewrite IH.
  rewrite filter_cons. destruct (f r); by case_decide.
Qed.

Lemma filter_rows_ext (t1 t2 : Row → outcome bool) (rows : list Row) :
  (∀ r, t1 r = t2 r) → Sql.filter_rows t1 rows = Sql.filter_rows t2 rows.
Proof.
  intros Hext. induction rows as [|r rows IH]; simpl; [done|].
  by rewrite Hext, IH.
Qed.

Lemma execute_select_open (mc : Machine) (d : database)
    (table lang param : string) (op : sql_op) :
  conn (self mc) = Open d →
  execute_select table lang op param mc
  = (Sql.select_where table lang (where_test op param) d,
     mkMachine (self mc)
       (add_events [EvExecute (select_sql table lang op)] (world mc))).
Proof.
  intros E. unfold execute_select, live_db. run_monad. by rewrite E.
Qed.

(** The statement and the parameter of a search in one of the three
    modes. *)
Lemma search_in_db_open (mc : Machine) (d : database)
    (word lang search_type : string) (op : sql_op) (param : string) :
  conn (self mc) = Open d →
  (search_type = "fulltext" ∧ op = LIKE ∧ param = "%" +:+ word +:+ "%")
  ∨ (search_type = "whole_word" ∧ op = REGEXP
     ∧ param = "\b" +:+ word +:+ "\b")
  ∨ (search_type = "first_chars" ∧ op = LIKE ∧ param = word +:+ "%") →
  search_in_db word lang search_type mc
  = (match Sql.select_where (table_name (self mc)) lang
             (where_test op param) d with
     | Ok rows => Ok (Result_of_row <$> rows)
     | Raise e => Raise e
     end,
     mkMachine (self mc)
       (add_events [EvExecute (select_sql (table_name (self mc)) lang op)]
          (world mc))).
Proof.
  intros E Hmode. unfold search_in_db.
  assert (∀ q : sql_op * string,
    (rows ← execute_select (table_name (self mc)) lang q.1 q.2;
     mret (Result_of_row <$> rows)) mc
    = (match Sql.select_where (table_name (self mc)) lang
               (where_test q.1 q.2) d with
       | Ok rows => Ok (Result_of_row <$> rows)
       | Raise e => Raise e
       end,
       mkMachine (self mc)
         (add_events
            [EvExecute (select_sql (table_name (self mc)) lang q.1)]
            (world mc)))) as Hq.
  { intros q. unfold mbind, M_bind at 1.
    rewrite (execute_select_open mc d) by done.
    by destruct (Sql.select_where _ _ _ _). }
  destruct Hmode as [[-> [-> ->]]|[[-> [-> ->]]|[-> [-> ->]]]];
    apply (Hq (_, _)).
Qed.

(** C8 (as the code has it).  On a live connection whose table exists
    and has no rows, as after [db_init] from an empty backing file and
    [prepare_db], a search in any of the three modes for a [lang] that
    names a column returns, and yields nothing. *)
Theorem search_in_db_empty_table (mc : Machine) (d : database)
    (word lang search_type : string) (col : Row → string) :
  conn (self mc) = Open d →
  Sql.lookup_table (table_name (self mc)) d = Some [] →
  Sql.column lang = Some col →
  search_type = "fulltext" ∨ search_type = "whole_word"
    ∨ search_type = "first_chars" →
  (search_in_db word lang search_type mc).1 = Ok [].
Proof.
  intros Hopen Htable Hcol Hmode.
  assert (∀ op param,
    Sql.select_where (table_name (self mc)) lang (where_test op param) d
    = Ok []) as Hsel.
  { intros op param. unfold Sql.select_where. by rewrite Htable, Hcol. }
  destruct Hmode as [-> | [-> | ->]].
  - rewrite (search_in_db_open mc d word lang _ LIKE ("%" +:+ word +:+ "%"))
      by (done || auto). by rewrite Hsel.
  - rewrite (search_in_db_open mc d word lang _ REGEXP ("\b" +:+ word +:+ "\b"))
      by (done || auto). by rewrite Hsel.
  - rewrite (search_in_db_open mc d word lang _ LIKE (word +:+ "%"))
      by (done || auto 10). by rewrite Hsel.
Qed.

End Search.

(** A run of C8: the prepared store of the tests, before [fill_db]. *)
Lemma search_in_db_empty_table_witness :
  (search_in_db "test" "eng" "fulltext" (Fixture.prepared Mock.db_path true)).1
  = Ok [].
Proof.
  apply (search_in_db_empty_table (Fixture.prepared Mock.db_path true)
           [("eng_cze", [])] "test" "eng" "fulltext" eng).
  - vm_compute. reflexivity.
  - vm_compute. reflexivity.
  - vm_compute. reflexivity.
  - by left.
Defined.

(** C8 as stated fails: a store initialized from the empty backing file
    of the tests has no table, and a search before [prepare_db] and
    before any [fill_db] raises instead of yielding nothing. *)
Lemma search_in_db_without_table :
  (search_in_db "test" "eng" "fulltext" (Fixture.adb Mock.db_path true)).1
  = Raise (OperationalError "no such table: eng_cze").
Proof. vm_compute. reflexivity. Qed.

Section WholeWord.

Context `{!Sqlite, !Lzma, !Regex}.

Global Instance Result_of_row_inj : Inj (=) (=) Result_of_row.
Proof. intros [] [] E. by inversion E. Qed.


Lemma where_test_regexp_failed (param value : string) :
  re_compile param [IGNORECASE] = None →
  where_test REGEXP param value
  = Raise (OperationalError "user-defined function raised exception").
Proof. intros E. unfold where_test, regexp. by rewrite E. Qed.


End WholeWord.


(** ** [LIKE] with a pattern between two percent signs *)

Section LikeFacts.

Import Like.

Lemma like_percent_unfold (p s : string) :
  like (String PERCENT p) s
  = like p s
    || match s with
       | EmptyString => false
       | String _ s' => like (String PERCENT p) s'
       end.
Proof. by destruct s. Qed.

Lemma like_char_unfold (c : ascii) (p s : string) :
  c ≠ PERCENT → c ≠ UNDERSCORE →
  like (String c p) s
  = match s with
    | EmptyString => false
    | String x s' => ci_eqb c x && like p s'
    end.
Proof.
  intros Hp Hu. simpl. rewrite !decide_False by done. by destruct s.
Qed.

Lemma like_percent (p s : string) :
  like (String PERCENT p) s = true
  ↔ ∃ pre rest, s = pre +:+ rest ∧ like p rest = true.
Proof.
  split.
  - induction s as [|x s IH]; rewrite like_percent_unfold;
      intros [Hl|Hr]%orb_true_iff.
    + by exists EmptyString, EmptyString.
    + done.
    + by exists EmptyString, (String x s).
    + destruct (IH Hr) as (pre & rest & -> & Hrest).
      by exists (String x pre), rest.
  - intros (pre & rest & -> & Hrest).
    induction pre as [|x pre IH].
    + change (EmptyString +:+ rest) with rest.
      by rewrite like_percent_unfold, Hrest.
    + change (String x pre +:+ rest) with (String x (pre +:+ rest)).
      rewrite like_percent_unfold, IH. apply orb_true_r.
Qed.

Lemma like_only_percent (s : string) : like (String PERCENT EmptyString) s = true.
Proof.
  apply like_percent. exists s, EmptyString. split; [|done].
  induction s as [|x s IH]; [done|].
  change (String x s +:+ EmptyString) with (String x (s +:+ EmptyString)).
  by rewrite <- IH.
Qed.




End LikeFacts.

Section FullText.

Context `{!Sqlite, !Lzma, !Regex}.



End FullText.



Section Durability.

Context `{!Sqlite, !Lzma, !Regex}.

Lemma db_init_keeps_files (mc : Machine) :
  files (world (db_init mc).2) = files (world mc).
Proof.
  unfold_methods. run_monad. repeat (case_match; simpl in *; simplify_eq); done.
Qed.

Lemma search_in_db_keeps_files (word lang search_type : string) (mc : Machine) :
  files (world (search_in_db word lang search_type mc).2) = files (world mc).
Proof.
  unfold_methods. run_monad. repeat (case_match; simpl in *; simplify_eq); done.
Qed.

Lemma close_db_keeps_files (mc : Machine) :
  files (world (close_db mc).2) = files (world mc).
Proof.
  unfold_methods. run_monad. repeat (case_match; simpl in *; simplify_eq); done.
Qed.

Lemma prepare_db_keeps_files (mc : Machine) :
  memory_only (self mc) = true →
  files (world (prepare_db mc).2) = files (world mc).
Proof.
  intros Hmo. unfold_methods. run_monad. rewrite Hmo.
  repeat (case_match; simpl in *; simplify_eq); done.
Qed.

Lemma fill_db_keeps_files (raw_file : option string) (mc : Machine) :
  memory_only (self mc) = true →
  files (world (fill_db raw_file mc).2) = files (world mc).
Proof.
  intros Hmo. rewrite fill_db_run. cbv zeta. unfold mutated. rewrite Hmo.
  by repeat case_match.
Qed.


(** What a run of [fill_db] that returns has found and done. *)
Lemma fill_db_ok (raw_file : option string) (mc mc' : Machine) :
  fill_db raw_file mc = (Ok (), mc') →
  ∃ d content data rows,
    conn (self mc) = Open d
    ∧ files (world mc) !! default DEFAULT_RAW_FILE raw_file = Some content
    ∧ parse_lines
        (Py.lines (Py.universal_newlines (String.string_of_list_byte content)))
      = Ok data
    ∧ Sql.lookup_table (table_name (self mc)) d = Some rows
    ∧ self mc' = with_conn
                   (Open (Sql.append_rows (table_name (self mc)) data d))
                   (self mc)
    ∧ files (world mc')
      = if memory_only (self mc) then files (world mc)
        else <[db_file (self mc) :=
                 flushed_bytes (self mc)
                   (Sql.append_rows (table_name (self mc)) data d)
                   (default [] (files (world mc) !! db_file (self mc)))]>
               (files (world mc)).
Proof.
  rewrite fill_db_run. cbv zeta. intros Hrun.
  destruct (files (world mc) !! default DEFAULT_RAW_FILE raw_file)
    as [content|]; [|discriminate].
  destruct (parse_lines _) as [data|e] eqn:Eparse; [|discriminate].
  destruct (conn (self mc)) as [|d|]; try discriminate.
  unfold Sql.insert_many in Hrun.
  destruct (Sql.lookup_table (table_name (self mc)) d) as [rows|] eqn:Etab;
    [|discriminate].
  injection Hrun as <-. exists d, content, data, rows.
  split_and!; try done.
  unfold mutated. by destruct (memory_only (self mc)).
Qed.



End Durability.



(** ** Persistence *)

Section Persistence.

Context `{!Sqlite, !Lzma, !Regex, !FaithfulImages}.

Lemma lookup_table_append_rows (name name' : string) (new : list Row)
    (d : database) :
  Sql.lookup_table name' (Sql.append_rows name new d)
  = if decide (name' = name)
    then (λ rows, rows ++ new) <$> Sql.lookup_table name d
    else Sql.lookup_table name' d.
Proof.
  induction d as [|[n rows] d IH]; simpl.
  - by case_decide.
  - destruct (decide (n = name)) as [->|Hn]; simpl.
    + repeat case_decide; by simplify_eq.
    + rewrite IH. repeat case_decide; by simplify_eq.
Qed.

(** The file [write_to_file] leaves holds the database it was given. *)
Lemma stored_database_flushed (s : Store) (d : database) (old : list byte) :
  (lzma_compressed s = false → ∃ d0, load_image old = Ok d0) →
  stored_database s (flushed_bytes s d old) = Some d.
Proof.
  intros Hold. unfold stored_database, flushed_bytes.
  destruct (lzma_compressed s); simpl.
  - by rewrite decompress_compress; simpl; rewrite load_serialize.
  - destruct Hold as [d0 Hd0]; [done|]. by rewrite (load_backup d old d0).
Qed.

Lemma stored_database_loadable (s : Store) (content : list byte)
    (d : database) :
  lzma_compressed s = false →
  stored_database s content = Some d →
  load_image content = Ok d.
Proof.
  intros Hl. unfold stored_database. rewrite Hl. simpl.
  destruct (load_image content); naive_solver.
Qed.

(** [db_init] loads the database the backing file holds. *)
Lemma db_init_stored (mc : Machine) (content : list byte) (d : database) :
  files (world mc) !! db_file (self mc) = Some content →
  stored_database (self mc) content = Some d →
  ∃ image,
    db_init mc
    = (Ok (),
       mkMachine (with_conn (Open d) (with_file_db_bytes image (self mc)))
         (add_events [EvRead (db_file (self mc))] (world mc))).
Proof.
  intros Hfile Hstored. unfold stored_database in Hstored.
  unfold db_init, read_bytes. run_monad. rewrite Hfile. simpl.
  destruct (lzma_compressed (self mc)); simpl in *.
  - destruct (lzma_decompress content) as [image|]; [|done]. simpl in *.
    destruct (load_image image) as [d'|]; [|done]. simplify_eq.
    by exists image.
  - destruct (load_image content) as [d'|]; [|done]. simplify_eq.
    by exists content.
Qed.

(** C1.  Let a store that writes through, built by the constructor on a
    [.db] or a [.db.lzma] path, have loaded the rows of a raw file with
    [fill_db].  Then [write_to_file] returns, the constructor accepts
    the same path again, [db_init] of the fresh store returns, and the
    fresh store has the database of the first one: the same tables, the
    table with the rows it had followed by the rows of the raw file in
    their order.  (For a [.db] file, the file is taken to have held a
    database image, or nothing, before.) *)
Theorem fill_db_round_trip (raw_file : option string) (mc mc1 : Machine)
    (memory_only' : bool) :
  constructed (self mc) →
  memory_only (self mc) = false →
  (lzma_compressed (self mc) = false →
   ∃ d0, load_image (default [] (files (world mc) !! db_file (self mc)))
         = Ok d0) →
  fill_db raw_file mc = (Ok (), mc1) →
  ∃ rows data d1 mc2 fresh w3 mc4,
    Sql.lookup_table (table_name (self mc)) d1 = Some (rows ++ data)
    ∧ conn (self mc1) = Open d1
    ∧ write_to_file mc1 = (Ok (), mc2)
    ∧ init (db_file (self mc)) (table_name (self mc)) memory_only'
        (world mc2) = (Ok fresh, w3)
    ∧ db_init (mkMachine fresh w3) = (Ok (), mc4)
    ∧ conn (self mc4) = Open d1.
Proof.
  intros [Hsuffix Hflag] Hmo Hold Hfill.
  apply fill_db_ok in Hfill
    as (d & content & data & rows & Hopen & _ & _ & Htable & Hself & Hfiles).
  rewrite Hmo in Hfiles.
  set (s := self mc) in *. set (name := table_name s) in *.
  set (d1 := Sql.append_rows name data d) in *.
  set (old0 := default [] (files (world mc) !! db_file s)) in *.
  set (bytes1 := flushed_bytes s d1 old0) in *.
  assert (stored_database s bytes1 = Some d1) as Hstored1
    by (by apply stored_database_flushed).
  assert (conn (self mc1) = Open d1) as Hopen1 by (by rewrite Hself).
  assert (db_file (self mc1) = db_file s) as Hpath by (by rewrite Hself).
  assert (lzma_compressed (self mc1) = lzma_compressed s) as Hlz
    by (by rewrite Hself).
  set (bytes2 := flushed_bytes (self mc1) d1
                   (default [] (files (world mc1) !! db_file (self mc1)))).
  assert (stored_database s bytes2 = Some d1) as Hstored2.
  { unfold bytes2.
    replace (flushed_bytes (self mc1)) with (flushed_bytes s)
      by (unfold flushed_bytes; by rewrite Hlz).
    apply stored_database_flushed. intros Hu.
    rewrite Hpath, Hfiles, lookup_insert_eq. simpl. exists d1.
    by apply (stored_database_loadable s). }
  edestruct (db_init_stored
    (mkMachine
       (mkStore memory_only' name
          (bool_decide (Py.suffixes (db_file s) = [".db"; ".lzma"]))
          (db_file s) None Unset)
       (mkWorld (files (flushed (self mc1) d1 (world mc1)))
          (events (flushed (self mc1) d1 (world mc1))
             ++ [EvExists (db_file s)]))) bytes2 d1) as [image Hinit].
  { unfold flushed. simpl. by rewrite <- Hpath, lookup_insert_eq. }
  { unfold stored_database in *. simpl. by rewrite <- Hflag. }
  exists rows, data, d1. eexists _, _, _, _.
  split.
  { unfold d1. rewrite lookup_table_append_rows, decide_True by done.
    by rewrite Htable. }
  split; [done|].
  split; [by apply write_to_file_open|].
  split.
  { apply init_recognized_suffix; [done|].
    unfold flushed. simpl. rewrite Hpath, lookup_insert_eq. eauto. }
  split; [exact Hinit|]. done.
Qed.

End Persistence.

(** ** The stand-ins are faithful *)

Lemma pos_of_bits_of_pos (p : positive) :
  Mock.pos_of_bits (Mock.bits_of_pos p) = p.
Proof. induction p as [p IH|p IH|]; simpl; by rewrite ?IH. Qed.

Lemma mock_deserialize_image (d : database) (counter : byte) :
  Mock.mock_deserialize (Mock.MAGIC :: counter :: Mock.bits_of_pos (encode d))
  = Some d.
Proof.
  unfold Mock.mock_deserialize, Mock.MAGIC.
  by rewrite pos_of_bits_of_pos, decode_encode.
Qed.

Global Instance mock_faithful : FaithfulImages.
Proof.
  split.
  - intros [|t d]; [done|]. unfold load_image.
    change (serialize (t :: d))
      with (Mock.MAGIC :: x00 :: Mock.bits_of_pos (encode (t :: d))).
    change (deserialize ?b) with (Mock.mock_deserialize b).
    cbv iota. by rewrite mock_deserialize_image.
  - intros d old d0 _. unfold load_image.
    change (backup_to_file d old)
      with (Mock.MAGIC :: Mock.next_counter old :: Mock.bits_of_pos (encode d)).
    change (deserialize ?b) with (Mock.mock_deserialize b).
    cbv iota. by rewrite mock_deserialize_image.
  - done.
Qed.

(** A run of C1: the rows of the raw file of the tests, through the LZMA
    file. *)
Lemma fill_db_round_trip_witness :
  ∃ fresh w3 mc4,
    init Mock.lzma_path "eng_cze" true
      (world (write_to_file
                (fill_db (Some Mock.raw_file)
                   (Fixture.prepared Mock.lzma_path false)).2).2)
    = (Ok fresh, w3)
    ∧ db_init (mkMachine fresh w3) = (Ok (), mc4)
    ∧ conn (self mc4)
      = Open [("eng_cze", [Fixture.row_test_eng; Fixture.row_eng;
                           Fixture.row_english])].
Proof.
  destruct (fill_db_round_trip (Some Mock.raw_file)
              (Fixture.prepared Mock.lzma_path false)
              (fill_db (Some Mock.raw_file)
                 (Fixture.prepared Mock.lzma_path false)).2
              true)
    as (rows & data & d1 & mc2 & fresh & w3 & mc4
        & Hrows & Hconn & Hwrite & Hinit & Hdb & Hfresh).
  - split; vm_compute; [by left | reflexivity].
  - vm_compute. reflexivity.
  - intros Hflag. vm_compute in Hflag. discriminate.
  - vm_compute. reflexivity.
  - exists fresh, w3, mc4. rewrite Hwrite. cbn [snd].
    split_and!; [exact Hinit | exact Hdb |].
    rewrite Hfresh, <- Hconn. vm_compute. reflexivity.
Defined.

(** The same run through the database file. *)
Lemma fill_db_round_trip_db_file :
  ∃ fresh w3 mc4,
    init Mock.db_path "eng_cze" true
      (world (write_to_file
                (fill_db (Some Mock.raw_file)
                   (Fixture.prepared Mock.db_path false)).2).2)
    = (Ok fresh, w3)
    ∧ db_init (mkMachine fresh w3) = (Ok (), mc4)
    ∧ conn (self mc4)
      = Open [("eng_cze", [Fixture.row_test_eng; Fixture.row_eng;
                           Fixture.row_english])].
Proof.
  eexists _, _, _. split_and!; vm_compute; reflexivity.
Qed.

(** ** Compression transparency *)

Section Transparency.

Context `{!Sqlite, !Lzma, !Regex, !FaithfulImages}.

Lemma same_config_refl (s : Store) : same_config s s.
Proof. by repeat split. Qed.

Lemma same_config_with_conn (h : handle) (s : Store) :
  same_config s (with_conn h s).
Proof. by repeat split. Qed.

(** A step that leaves the files as they are keeps the fixtures
    matching. *)
Lemma matching_same_files (mc mu mc' mu' : Machine) :
  matching mc mu →
  same_config (self mc) (self mc') →
  same_config (self mu) (self mu') →
  conn (self mc') = conn (self mu') →
  files (world mc') = files (world mc) →
  files (world mu') = files (world mu) →
  matching mc' mu'.
Proof.
  intros (Hlc & Hlu & Hmo & Htn & Hconn & (bc & bu & d & Hbc & Hbu & Hsc & Hsu)
          & Hrest)
    (Cmo & Ctn & Clz & Cdb) (Umo & Utn & Ulz & Udb) Hconn' Hfc Hfu.
  unfold matching, same_stored.
  rewrite Cmo, Ctn, Clz, Cdb, Umo, Utn, Ulz, Udb, Hfc, Hfu.
  split_and!; try done.
  exists bc, bu, d. unfold stored_database in *.
  by rewrite Clz, Ulz.
Qed.

(** So does a step that writes both files for the same database. *)
Lemma matching_flushed (mc mu mc' mu' : Machine) (d : database) :
  matching mc mu →
  same_config (self mc) (self mc') →
  same_config (self mu) (self mu') →
  conn (self mc') = conn (self mu') →
  files (world mc')
  = <[db_file (self mc) :=
        flushed_bytes (self mc) d
          (default [] (files (world mc) !! db_file (self mc)))]>
      (files (world mc)) →
  files (world mu')
  = <[db_file (self mu) :=
        flushed_bytes (self mu) d
          (default [] (files (world mu) !! db_file (self mu)))]>
      (files (world mu)) →
  matching mc' mu'.
Proof.
  intros (Hlc & Hlu & Hmo & Htn & Hconn & (bc & bu & d0 & Hbc & Hbu & Hsc & Hsu)
          & Hrest)
    (Cmo & Ctn & Clz & Cdb) (Umo & Utn & Ulz & Udb) Hconn' Hfc Hfu.
  unfold matching, same_stored.
  rewrite Cmo, Ctn, Clz, Cdb, Umo, Utn, Ulz, Udb, Hfc, Hfu.
  split_and!; try done.
  - eexists _, _, d. rewrite !lookup_insert_eq. split_and!; try done.
    + replace (stored_database (self mc')) with (stored_database (self mc))
        by (unfold stored_database; by rewrite Clz).
      apply stored_database_flushed. intros E. congruence.
    + replace (stored_database (self mu')) with (stored_database (self mu))
        by (unfold stored_database; by rewrite Ulz).
      apply stored_database_flushed. intros _. rewrite Hbu. simpl.
      exists d0. by apply (stored_database_loadable (self mu)).
  - intros p Hpc Hpu. rewrite !lookup_insert_ne by done. by apply Hrest.
Qed.

Lemma prepare_db_not_open (mc : Machine) :
  (∀ d, conn (self mc) ≠ Open d) →
  ∃ e, prepare_db mc = (Raise e, mc)
       ∧ ∀ mu, conn (self mu) = conn (self mc) → prepare_db mu = (Raise e, mu).
Proof.
  intros Hno. unfold_methods. run_monad.
  destruct (conn (self mc)) as [|d|] eqn:E; [|by destruct (Hno d)|];
    (eexists; split; [done|]; by intros mu ->).
Qed.

Lemma matching_step_prepare_db (mc mu : Machine) :
  matching mc mu →
  (prepare_db mc).1 = (prepare_db mu).1
  ∧ matching (prepare_db mc).2 (prepare_db mu).2.
Proof.
  intros Hm. pose proof Hm as (Hlc & Hlu & Hmo & Htn & Hconn & _ & _).
  destruct (conn (self mc)) as [|d|] eqn:E.
  - destruct (prepare_db_not_open mc) as (e & -> & Hu); [by rewrite E|].
    by rewrite (Hu mu) by congruence.
  - rewrite (prepare_db_open mc d E), (prepare_db_open mu d) by congruence.
    cbn [fst snd]. split; [done|]. rewrite <- Htn.
    unfold mutated. rewrite <- Hmo. destruct (memory_only (self mc)).
    + by eapply matching_same_files.
    + by eapply (matching_flushed mc mu).
  - destruct (prepare_db_not_open mc) as (e & -> & Hu); [by rewrite E|].
    by rewrite (Hu mu) by congruence.
Qed.

Lemma write_to_file_not_open (mc : Machine) :
  (∀ d, conn (self mc) ≠ Open d) →
  ∃ e, write_to_file mc = (Raise e, mc)
       ∧ ∀ mu, conn (self mu) = conn (self mc) →
               write_to_file mu = (Raise e, mu).
Proof.
  intros Hno. unfold_methods. run_monad.
  destruct (conn (self mc)) as [|d|] eqn:E; [|by destruct (Hno d)|].
  - eexists. split; [by destruct (lzma_compressed (self mc)); simpl; rewrite E|].
    intros mu Hmu.
    by destruct (lzma_compressed (self mu)); simpl; rewrite Hmu.
  - eexists. split; [by destruct (lzma_compressed (self mc)); simpl; rewrite E|].
    intros mu Hmu.
    by destruct (lzma_compressed (self mu)); simpl; rewrite Hmu.
Qed.

Lemma matching_step_write_to_file (mc mu : Machine) :
  matching mc mu →
  (write_to_file mc).1 = (write_to_file mu).1
  ∧ matching (write_to_file mc).2 (write_to_file mu).2.
Proof.
  intros Hm. pose proof Hm as (Hlc & Hlu & Hmo & Htn & Hconn & _ & _).
  destruct (conn (self mc)) as [|d|] eqn:E.
  - destruct (write_to_file_not_open mc) as (e & -> & Hu); [by rewrite E|].
    by rewrite (Hu mu) by congruence.
  - rewrite (write_to_file_open mc d E), (write_to_file_open mu d) by congruence.
    cbn [fst snd]. split; [done|].
    eapply (matching_flushed mc mu _ _ d);
      [exact Hm | apply same_config_refl | apply same_config_refl
      | simpl; congruence | reflexivity | reflexivity].
  - destruct (write_to_file_not_open mc) as (e & -> & Hu); [by rewrite E|].
    by rewrite (Hu mu) by congruence.
Qed.

Lemma matching_step_close_db (mc mu : Machine) :
  matching mc mu →
  (close_db mc).1 = (close_db mu).1
  ∧ matching (close_db mc).2 (close_db mu).2.
Proof.
  intros Hm. pose proof Hm as (Hlc & Hlu & Hmo & Htn & Hconn & _ & _).
  unfold close_db. run_monad. rewrite <- Hconn.
  destruct (conn (self mc)); simpl; (split; [done|]); try done;
    by eapply matching_same_files.
Qed.

Lemma matching_step_db_init (mc mu : Machine) :
  matching mc mu →
  (db_init mc).1 = (db_init mu).1
  ∧ matching (db_init mc).2 (db_init mu).2.
Proof.
  intros Hm.
  pose proof Hm as (_ & _ & _ & _ & _ & (bc & bu & d & Hbc & Hbu & Hsc & Hsu) & _).
  destruct (db_init_stored mc bc d Hbc Hsc) as [ic ->].
  destruct (db_init_stored mu bu d Hbu Hsu) as [iu ->].
  cbn [fst snd]. split; [done|].
  by eapply matching_same_files.
Qed.

Lemma search_in_db_untouched (word lang search_type : string) (mc : Machine) :
  self (search_in_db word lang search_type mc).2 = self mc.
Proof.
  unfold_methods. run_monad. repeat (case_match; simpl in *; simplify_eq); done.
Qed.

Lemma search_in_db_outcome (word lang search_type : string) (mc mu : Machine) :
  conn (self mc) = conn (self mu) →
  table_name (self mc) = table_name (self mu) →
  (search_in_db word lang search_type mc).1
  = (search_in_db word lang search_type mu).1.
Proof.
  intros Hconn Htn. unfold_methods. run_monad.
  repeat (case_decide; simpl); rewrite <- ?Hconn, <- ?Htn;
    repeat (case_match; simpl in *; simplify_eq); done.
Qed.

Lemma matching_step_search_in_db (word lang search_type : string)
    (mc mu : Machine) :
  matching mc mu →
  (search_in_db word lang search_type mc).1
  = (search_in_db word lang search_type mu).1
  ∧ matching (search_in_db word lang search_type mc).2
      (search_in_db word lang search_type mu).2.
Proof.
  intros Hm. pose proof Hm as (Hlc & Hlu & Hmo & Htn & Hconn & _ & _).
  split; [by apply search_in_db_outcome|].
  eapply matching_same_files; [exact Hm|..].
  - rewrite search_in_db_untouched. apply same_config_refl.
  - rewrite search_in_db_untouched. apply same_config_refl.
  - by rewrite !search_in_db_untouched.
  - apply search_in_db_keeps_files.
  - apply search_in_db_keeps_files.
Qed.

Lemma fill_db_fails (raw_file : option string) (mc mc' : Machine) (e : exn) :
  fill_db raw_file mc = (Raise e, mc') →
  self mc' = self mc ∧ files (world mc') = files (world mc).
Proof.
  rewrite fill_db_run. cbv zeta. intros Hrun.
  repeat case_match; by simplify_eq.
Qed.

Lemma fill_db_outcome (raw_file : option string) (mc mu : Machine) :
  conn (self mc) = conn (self mu) →
  table_name (self mc) = table_name (self mu) →
  files (world mc) !! default DEFAULT_RAW_FILE raw_file
  = files (world mu) !! default DEFAULT_RAW_FILE raw_file →
  (fill_db raw_file mc).1 = (fill_db raw_file mu).1.
Proof.
  intros Hconn Htn Hfile. rewrite !fill_db_run. cbv zeta.
  rewrite <- Hfile, <- Hconn, <- Htn.
  by repeat case_match.
Qed.

Lemma matching_step_fill_db (raw_file : option string) (mc mu : Machine) :
  matching mc mu →
  default DEFAULT_RAW_FILE raw_file ≠ db_file (self mc) →
  default DEFAULT_RAW_FILE raw_file ≠ db_file (self mu) →
  (fill_db raw_file mc).1 = (fill_db raw_file mu).1
  ∧ matching (fill_db raw_file mc).2 (fill_db raw_file mu).2.
Proof.
  intros Hm Hpc Hpu.
  pose proof Hm as (Hlc & Hlu & Hmo & Htn & Hconn & _ & Hrest).
  pose proof (fill_db_outcome raw_file mc mu Hconn Htn (Hrest _ Hpc Hpu)) as Hout.
  split; [done|].
  destruct (fill_db raw_file mc) as [[[]|ec] mc'] eqn:Ec;
    destruct (fill_db raw_file mu) as [[[]|eu] mu'] eqn:Eu;
    simpl in Hout; try discriminate; cbn [snd].
  - apply fill_db_ok in Ec
      as (d & content & data & rows & Hopen & Hfile & Hparse & _ & Hself & Hfiles).
    apply fill_db_ok in Eu
      as (d' & content' & data' & rows' & Hopen' & Hfile' & Hparse' & _
          & Hself' & Hfiles').
    assert (d' = d) as -> by congruence.
    assert (content' = content) as ->
      by (rewrite (Hrest _ Hpc Hpu) in Hfile; congruence).
    assert (data' = data) as -> by congruence.
    rewrite <- Htn in Hself', Hfiles'. rewrite <- Hmo in Hfiles'.
    destruct (memory_only (self mc)).
    + apply (matching_same_files mc mu mc' mu');
        [exact Hm | rewrite Hself; apply same_config_with_conn
        | rewrite Hself'; apply same_config_with_conn
        | by rewrite Hself, Hself' | exact Hfiles | exact Hfiles'].
    + apply (matching_flushed mc mu mc' mu'
               (Sql.append_rows (table_name (self mc)) data d));
        [exact Hm | rewrite Hself; apply same_config_with_conn
        | rewrite Hself'; apply same_config_with_conn
        | by rewrite Hself, Hself' | exact Hfiles | exact Hfiles'].
  - apply fill_db_fails in Ec as [Hself Hfiles].
    apply fill_db_fails in Eu as [Hself' Hfiles'].
    apply (matching_same_files mc mu mc' mu');
      [exact Hm | rewrite Hself; apply same_config_refl
      | rewrite Hself'; apply same_config_refl
      | by rewrite Hself, Hself' | exact Hfiles | exact Hfiles'].
Qed.

(** One call on two matching fixtures. *)
Lemma matching_step (c : call) (mc mu : Machine) :
  matching mc mu →
  reads_other_file (db_file (self mc)) (db_file (self mu)) c →
  (run_call c mc).1 = (run_call c mu).1
  ∧ matching (run_call c mc).2 (run_call c mu).2.
Proof.
  intros Hm Hc. destruct c; unfold run_call; run_monad.
  - destruct (matching_step_db_init mc mu Hm) as [E M].
    destruct (db_init mc) as [[[]|?] ?], (db_init mu) as [[[]|?] ?];
      simpl in *; by simplify_eq.
  - destruct (matching_step_prepare_db mc mu Hm) as [E M].
    destruct (prepare_db mc) as [[[]|?] ?], (prepare_db mu) as [[[]|?] ?];
      simpl in *; by simplify_eq.
  - destruct Hc as [Hpc Hpu].
    destruct (matching_step_fill_db raw_file mc mu Hm Hpc Hpu) as [E M].
    destruct (fill_db raw_file mc) as [[[]|?] ?],
      (fill_db raw_file mu) as [[[]|?] ?]; simpl in *; by simplify_eq.
  - by apply matching_step_search_in_db.
  - destruct (matching_step_write_to_file mc mu Hm) as [E M].
    destruct (write_to_file mc) as [[[]|?] ?],
      (write_to_file mu) as [[[]|?] ?]; simpl in *; by simplify_eq.
  - destruct (matching_step_close_db mc mu Hm) as [E M].
    destruct (close_db mc) as [[[]|?] ?], (close_db mu) as [[[]|?] ?];
      simpl in *; by simplify_eq.
Qed.

Lemma run_call_db_file (c : call) (mc : Machine) :
  db_file (self (run_call c mc).2) = db_file (self mc).
Proof.
  destruct c; unfold_methods; run_monad;
    repeat (case_match; simpl in *; simplify_eq); done.
Qed.

(** C9.  Let a store on an LZMA file and a store on a database file be
    configured alike, with backing files that hold the same database and
    worlds that agree elsewhere, and let a client make the same calls on
    both ([db_init], [prepare_db], [fill_db] from a raw file other than
    the backing files, [search_in_db], [write_to_file], [close_db], in
    any order and number).  Then every call gives the same results or
    raises the same exception on both, and the two stores end with the
    same database in memory and in their backing files. *)
Theorem compression_transparency (cs : list call) (mc mu : Machine) :
  matching mc mu →
  Forall (reads_other_file (db_file (self mc)) (db_file (self mu))) cs →
  (run_calls cs mc).1 = (run_calls cs mu).1
  ∧ matching (run_calls cs mc).2 (run_calls cs mu).2.
Proof.
  revert mc mu. induction cs as [|c cs IH]; intros mc mu Hm Hcs; [done|].
  apply Forall_cons in Hcs as [Hc Hcs].
  destruct (matching_step c mc mu Hm Hc) as [E M].
  pose proof (run_call_db_file c mc) as Dc.
  pose proof (run_call_db_file c mu) as Du.
  cbn [run_calls].
  destruct (run_call c mc) as [rc mc'], (run_call c mu) as [ru mu'].
  cbn [fst snd] in *. subst ru.
  destruct (IH mc' mu' M) as [E' M']; [by rewrite Dc, Du|].
  destruct (run_calls cs mc') as [rsc mc''], (run_calls cs mu') as [rsu mu''].
  cbn [fst snd] in *. by subst rsu.
Qed.

End Transparency.

(** A run of C9: the session of the tests on the two fixtures. *)
Lemma compression_transparency_witness :
  (run_calls Fixture.session (Fixture.adb Mock.lzma_path false)).1
  = (run_calls Fixture.session (Fixture.adb Mock.db_path false)).1
  ∧ matching (run_calls Fixture.session (Fixture.adb Mock.lzma_path false)).2
      (run_calls Fixture.session (Fixture.adb Mock.db_path false)).2.
Proof.
  apply (compression_transparency Fixture.session
           (Fixture.adb Mock.lzma_path false) (Fixture.adb Mock.db_path false)).
  - split_and!; try (vm_compute; reflexivity).
    exists (Mock.mock_compress []), [], [].
    split_and!; vm_compute; reflexivity.
  - unfold Fixture.session.
    repeat (apply Forall_cons; split); try apply Forall_nil; try exact I.
    split; vm_compute; discriminate.
Defined.

(** ** The test-suite on the model *)

(** [test_search_in_db_with_all_search_types] *)
Lemma test_search_in_db_with_all_search_types :
  yielded (search_in_db "test" "eng" "fulltext"
             (Fixture.filled Mock.db_path true))
  = [Result_of_row Fixture.row_test_eng]
  ∧ yielded (search_in_db "eng" "eng" "first_chars"
               (Fixture.filled Mock.db_path true))
    = [Result_of_row Fixture.row_eng; Result_of_row Fixture.row_english]
  ∧ yielded (search_in_db "english" "eng" "whole_word"
               (Fixture.filled Mock.db_path true))
    = [Result_of_row Fixture.row_english]
  ∧ (search_in_db "ehm" "eng" "unknown" (Fixture.filled Mock.db_path true)).1
    = Raise (ValueError "Unknown search_type argument.").
Proof. split_and!; vm_compute; reflexivity. Qed.

(** [test_search_in_db]: nothing is found before [fill_db]. *)
Lemma test_search_in_db :
  (search_in_db "test" "eng" "fulltext" (Fixture.prepared Mock.lzma_path true)).1
  = Ok [].
Proof. vm_compute. reflexivity. Qed.

(** [test_with_real_db_file]: [prepare_db] leaves a file that is not
    empty, [fill_db] changes it, the word is found, and found again by a
    fresh store on the file. *)
Lemma test_with_real_db_file (path : string) :
  path = Mock.db_path ∨ path = Mock.lzma_path →
  files (world (Fixture.prepared path false)) !! path ≠ Some []
  ∧ files (world (Fixture.filled path false)) !! path
    ≠ files (world (Fixture.prepared path false)) !! path
  ∧ res_cze <$> yielded (search_in_db "english" "eng" "whole_word"
                           (Fixture.filled path false))
    = ["czech"]
  ∧ ∃ fresh w,
      init path "eng_cze" true (world (close_db (Fixture.filled path false)).2)
      = (Ok fresh, w)
      ∧ res_cze <$> yielded ((db_init;;
                              search_in_db "english" "eng" "whole_word")
                               (mkMachine fresh w))
        = ["czech"].
Proof.
  intros [-> | ->]; (split_and!; [vm_compute; discriminate ..| |]);
    [vm_compute; reflexivity | eexists _, _; split; vm_compute; reflexivity
    |vm_compute; reflexivity | eexists _, _; split; vm_compute; reflexivity].
Qed.

(** * Further properties of the backend *)

(** ** The text of a raw file *)

Section RawText.

Import RawFile.

Lemma free_of_cons (c d : ascii) (s : string) :
  free_of c (String d s) = true ↔ d ≠ c ∧ free_of c s = true.
Proof.
  simpl. rewrite andb_true_iff, negb_true_iff, bool_decide_eq_false. tauto.
Qed.

Lemma split_not_nil (sep : ascii) (s : string) : Py.split sep s ≠ [].
Proof.
  induction s as [|c s IH]; simpl; [done|].
  case_decide; [done|]. by destruct (Py.split sep s).
Qed.

Lemma split_free (sep : ascii) (s : string) :
  free_of sep s = true → Py.split sep s = [s].
Proof.
  induction s as [|c s IH]; [done|].
  intros [Hc Hs]%free_of_cons. simpl.
  rewrite decide_False by done. by rewrite (IH Hs).
Qed.

(** A separator after a text free of it starts a new field. *)
Lemma split_field (sep : ascii) (a b : string) :
  free_of sep a = true →
  Py.split sep (a +:+ String sep b) = a :: Py.split sep b.
Proof.
  induction a as [|c a IH].
  - intros _. change (EmptyString +:+ String sep b) with (String sep b).
    simpl. by rewrite decide_True.
  - intros [Hc Ha]%free_of_cons.
    change (String c a +:+ String sep b) with (String c (a +:+ String sep b)).
    simpl. rewrite decide_False by done. by rewrite (IH Ha).
Qed.





Lemma app_cons (c : ascii) (s t : string) :
  String c s +:+ t = String c (s +:+ t).
Proof. done. Qed.




Lemma free_of_app (c : ascii) (a b : string) :
  free_of c (a +:+ b) = free_of c a && free_of c b.
Proof.
  induction a as [|d a IH]; [done|].
  change (String d a +:+ b) with (String d (a +:+ b)). simpl.
  by rewrite IH, andb_assoc.
Qed.

Lemma rev_app_rev_app (l a b : string) :
  String.rev_app (String.rev_app l a) b = String.rev_app a (l +:+ b).
Proof.
  revert a b. induction l as [|c l IH]; intros a b; [done|].
  simpl. by rewrite IH.
Qed.







End RawText.

(** ** More on the bulk load *)

Section BulkLoadMore.

Context `{!Sqlite, !Lzma, !Regex}.

Import RawFile.




(** X2: a missing raw file.  [fill_db] raises [FileNotFoundError] after
    the existence check alone: the store and the files are as before and
    no statement has been executed. *)
Theorem fill_db_missing_raw_file (raw_file : option string) (mc : Machine) :
  files (world mc) !! default DEFAULT_RAW_FILE raw_file = None →
  fill_db raw_file mc
  = (Raise FileNotFoundError,
     mkMachine (self mc)
       (mkWorld (files (world mc))
          (events (world mc)
             ++ [EvExists (default DEFAULT_RAW_FILE raw_file)]))).
Proof. intros Hfile. rewrite fill_db_run. cbv zeta. by rewrite Hfile. Qed.





(** X5: loading twice.  Two loads of the same raw file, other than the
    backing file, leave the rows of the file twice in the table, after
    the rows that were there: nothing keeps entries unique. *)
Theorem fill_db_twice_duplicates (raw_file : option string)
    (mc mc1 mc2 : Machine) :
  default DEFAULT_RAW_FILE raw_file ≠ db_file (self mc) →
  fill_db raw_file mc = (Ok (), mc1) →
  fill_db raw_file mc1 = (Ok (), mc2) →
  ∃ d rows content data d2,
    conn (self mc) = Open d
    ∧ Sql.lookup_table (table_name (self mc)) d = Some rows
    ∧ files (world mc) !! default DEFAULT_RAW_FILE raw_file = Some content
    ∧ parse_lines
        (Py.lines (Py.universal_newlines (String.string_of_list_byte content)))
      = Ok data
    ∧ conn (self mc2) = Open d2
    ∧ Sql.lookup_table (table_name (self mc)) d2
      = Some (rows ++ data ++ data).
Proof.
  intros Hpath Hfill1 Hfill2.
  apply fill_db_ok in Hfill1
    as (d & content & data & rows & Hopen & Hfile & Hparse & Htable
        & Hself & Hfiles).
  apply fill_db_ok in Hfill2
    as (d1 & content1 & data1 & rows1 & Hopen1 & Hfile1 & Hparse1 & Htable1
        & Hself1 & _).
  rewrite Hself in Hopen1, Htable1, Hself1. simpl in *.
  injection Hopen1 as <-.
  assert (content1 = content) as ->.
  { rewrite Hfiles in Hfile1. destruct (memory_only (self mc)).
    - congruence.
    - rewrite lookup_insert_ne in Hfile1 by done. congruence. }
  assert (data1 = data) as -> by congruence.
  exists d, rows, content, data. eexists. split_and!; [done..| |].
  - by rewrite Hself1.
  - rewrite !lookup_table_append_rows, !decide_True by done.
    rewrite Htable. simpl. by rewrite <- app_assoc.
Qed.

End BulkLoadMore.


(** A run of X2: a raw file that is not in the directory of the tests. *)
Lemma fill_db_missing_raw_file_witness :
  fill_db (Some "tmp/none.txt") (Fixture.prepared Mock.db_path true)
  = (Raise FileNotFoundError,
     mkMachine (self (Fixture.prepared Mock.db_path true))
       (mkWorld (files (world (Fixture.prepared Mock.db_path true)))
          (events (world (Fixture.prepared Mock.db_path true))
             ++ [EvExists "tmp/none.txt"]))).
Proof.
  apply (fill_db_missing_raw_file (Some "tmp/none.txt")
           (Fixture.prepared Mock.db_path true)).
  vm_compute. reflexivity.
Defined.



(** A run of X5: the raw file of the tests loaded twice. *)
Lemma fill_db_twice_duplicates_witness :
  ∃ d rows content data d2,
    conn (self (Fixture.prepared Mock.db_path true)) = Open d
    ∧ Sql.lookup_table (table_name (self (Fixture.prepared Mock.db_path true)))
        d = Some rows
    ∧ files (world (Fixture.prepared Mock.db_path true))
      !! default DEFAULT_RAW_FILE (Some Mock.raw_file) = Some content
    ∧ parse_lines
        (Py.lines (Py.universal_newlines (String.string_of_list_byte content)))
      = Ok data
    ∧ conn (self (fill_db (Some Mock.raw_file)
                    (Fixture.filled Mock.db_path true)).2) = Open d2
    ∧ Sql.lookup_table (table_name (self (Fixture.prepared Mock.db_path true)))
        d2 = Some (rows ++ data ++ data).
Proof.
  apply (fill_db_twice_duplicates (Some Mock.raw_file)
           (Fixture.prepared Mock.db_path true)
           (Fixture.filled Mock.db_path true)
           (fill_db (Some Mock.raw_file) (Fixture.filled Mock.db_path true)).2).
  - vm_compute. discriminate.
  - vm_compute. reflexivity.
  - vm_compute. reflexivity.
Defined.

(** ** More on the search *)

Section SearchMore.

Context `{!Sqlite, !Lzma, !Regex}.



(** X7: the search reads only.  Whatever its arguments and its outcome,
    [search_in_db] leaves the store and every file as they were. *)
Theorem search_in_db_read_only (word lang search_type : string)
    (mc : Machine) :
  self (search_in_db word lang search_type mc).2 = self mc
  ∧ files (world (search_in_db word lang search_type mc).2)
    = files (world mc).
Proof.
  split; [apply search_in_db_untouched | apply search_in_db_keeps_files].
Qed.

(** X8: a word that is no regular expression.  When the pattern of the
    whole-word search does not compile, the search raises the
    [OperationalError] of a failed user function if the table has a row,
    and returns without a result if the table is empty, where the
    function is never called. *)
Theorem whole_word_bad_pattern (mc : Machine) (d : database)
    (rows : list Row) (word lang : string) (col : Row → string) :
  conn (self mc) = Open d →
  Sql.lookup_table (table_name (self mc)) d = Some rows →
  Sql.column lang = Some col →
  re_compile ("\b" +:+ word +:+ "\b") [IGNORECASE] = None →
  (search_in_db word lang "whole_word" mc).1
  = match rows with
    | [] => Ok []
    | _ :: _ =>
        Raise (OperationalError "user-defined function raised exception")
    end.
Proof.
  intros Hopen Htable Hcol Hbad.
  rewrite (search_in_db_open mc d word lang _ REGEXP ("\b" +:+ word +:+ "\b"))
    by (done || auto).
  cbn [fst]. unfold Sql.select_where. rewrite Htable, Hcol.
  destruct rows as [|r rows]; [done|].
  cbn [Sql.filter_rows]. by rewrite where_test_regexp_failed.
Qed.

Lemma lower_percent (c : ascii) :
  Like.lower c = Like.PERCENT → c = Like.PERCENT.
Proof. by destruct c as [[] [] [] [] [] [] [] []]. Qed.

Lemma lower_underscore (c : ascii) :
  Like.lower c = Like.UNDERSCORE → c = Like.UNDERSCORE.
Proof. by destruct c as [[] [] [] [] [] [] [] []]. Qed.

Lemma ci_eqb_true (a b : ascii) :
  Like.ci_eqb a b = true ↔ Like.lower a = Like.lower b.
Proof. unfold Like.ci_eqb. apply bool_decide_eq_true. Qed.

Lemma ci_eqb_wildcard (a b : ascii) :
  Like.ci_eqb a b = true →
  (a = Like.PERCENT ↔ b = Like.PERCENT)
  ∧ (a = Like.UNDERSCORE ↔ b = Like.UNDERSCORE).
Proof.
  intros E%ci_eqb_true. split; split; intros ->.
  - apply lower_percent. by rewrite <- E.
  - apply lower_percent. by rewrite E.
  - apply lower_underscore. by rewrite <- E.
  - apply lower_underscore. by rewrite E.
Qed.

(** Patterns that differ in the case of ASCII letters match the same
    texts. *)
Lemma like_ci_pattern (p p' : string) :
  Like.ci_equal p p' = true → ∀ s, Like.like p s = Like.like p' s.
Proof.
  revert p'. induction p as [|a p IH]; intros [|b p']; try done.
  cbn [Like.ci_equal]. intros [Hab Hp]%andb_true_iff s.
  destruct (ci_eqb_wildcard a b Hab) as [Hpc Hus].
  destruct (decide (a = Like.PERCENT)) as [->|Ha].
  - rewrite (proj1 Hpc eq_refl).
    induction s as [|x s IHs].
    + by rewrite !like_percent_unfold, (IH p' Hp).
    + rewrite (like_percent_unfold p (String x s)),
        (like_percent_unfold p' (String x s)).
      by rewrite (IH p' Hp), IHs.
  - destruct (decide (a = Like.UNDERSCORE)) as [->|Hu].
    + rewrite (proj1 Hus eq_refl). simpl. destruct s; [done|]. by apply IH.
    + rewrite !like_char_unfold by tauto.
      destruct s as [|x s]; [done|]. rewrite (IH p' Hp).
      f_equal. unfold Like.ci_eqb. apply ci_eqb_true in Hab. by rewrite Hab.
Qed.

Lemma ci_equal_app (a a' b b' : string) :
  Like.ci_equal a a' = true → Like.ci_equal b b' = true →
  Like.ci_equal (a +:+ b) (a' +:+ b') = true.
Proof.
  revert a'. induction a as [|x a IH]; intros [|y a']; try done.
  cbn [Like.ci_equal]. intros [Hxy Ha]%andb_true_iff Hb.
  change (Like.ci_equal (String x (a +:+ b)) (String y (a' +:+ b')) = true).
  cbn [Like.ci_equal]. by rewrite Hxy, IH.
Qed.

Lemma ci_equal_refl (a : string) : Like.ci_equal a a = true.
Proof.
  induction a as [|x a IH]; [done|]. cbn [Like.ci_equal].
  rewrite IH, andb_true_r. by apply ci_eqb_true.
Qed.

(** X9: the case of the word.  On a live connection, two words that differ
    only in the case of ASCII letters give the same outcome in the
    full-text and in the first-characters search. *)
Theorem search_in_db_like_ignores_case (mc : Machine) (d : database)
    (word word' lang search_type : string) :
  conn (self mc) = Open d →
  search_type = "fulltext" ∨ search_type = "first_chars" →
  Like.ci_equal word word' = true →
  (search_in_db word lang search_type mc).1
  = (search_in_db word' lang search_type mc).1.
Proof.
  intros Hopen Hmode Hci.
  assert (∃ param param',
    mode_statement word search_type LIKE param
    ∧ mode_statement word' search_type LIKE param'
    ∧ Like.ci_equal param param' = true) as (param & param' & Hs & Hs' & Hp).
  { unfold mode_statement. destruct Hmode as [-> | ->].
    - exists ("%" +:+ word +:+ "%"), ("%" +:+ word' +:+ "%").
      split_and!; [auto 10..|].
      apply (ci_equal_app "%" "%"); [done|].
      apply ci_equal_app; [done|]. apply ci_equal_refl.
    - exists (word +:+ "%"), (word' +:+ "%").
      split_and!; [auto 10..|]. apply ci_equal_app; [done|]. apply ci_equal_refl. }
  rewrite (search_in_db_open mc d word lang search_type LIKE param),
    (search_in_db_open mc d word' lang search_type LIKE param') by done.
  cbn [fst]. unfold Sql.select_where.
  destruct (Sql.lookup_table _ d) as [rows|]; [|done].
  destruct (Sql.column lang) as [col|]; [|done].
  rewrite (filter_rows_ext _ (λ r, where_test LIKE param' (col r))); [done|].
  intros r. unfold where_test. by rewrite (like_ci_pattern param param' Hp).
Qed.




(** X11: first characters within full text.  On a live connection, for a
    word within the length SQLite accepts, every result of the
    first-characters search is a result of the full-text search for the
    same word and the same column. *)
Theorem first_chars_within_fulltext (mc : Machine) (d : database)
    (word lang : string) (res : Result) :
  conn (self mc) = Open d →
  within_like_limit word →
  res ∈ yielded (search_in_db word lang "first_chars" mc) →
  res ∈ yielded (search_in_db word lang "fulltext" mc).
Proof.
  intros Hopen _. unfold yielded.
  rewrite (search_in_db_open mc d word lang "first_chars" LIKE (word +:+ "%")),
    (search_in_db_open mc d word lang "fulltext" LIKE ("%" +:+ word +:+ "%"))
    by (done || auto 10).
  cbn [fst]. unfold Sql.select_where.
  destruct (Sql.lookup_table _ d) as [rows|]; [|by intros ?%elem_of_nil].
  destruct (Sql.column lang) as [col|]; [|by intros ?%elem_of_nil].
  change (λ r0, where_test LIKE ?p (col r0))
    with (λ r0, Ok (A:=bool) (Like.like p (col r0))).
  rewrite !filter_rows_total.
  intros (r & -> & [Hlike Hin]%list_elem_of_filter)%list_elem_of_fmap.
  apply list_elem_of_fmap. exists r. split; [done|].
  apply list_elem_of_filter. split; [|done].
  change ("%" +:+ word +:+ "%") with (String Like.PERCENT (word +:+ "%")).
  apply like_percent. by exists EmptyString, (col r).
Qed.

Lemma filter_all (rows : list Row) (f : Row → bool) :
  (∀ r, f r = true) → filter (λ r, f r = true) rows = rows.
Proof.
  intros Hf. induction rows as [|r rows IH]; [done|].
  by rewrite filter_cons_True, IH.
Qed.

(** X12: the empty word.  On a live connection whose table exists, the
    full-text and the first-characters search for the empty word in a
    column of the table yield every row, in the order of the table. *)
Theorem search_in_db_empty_word (mc : Machine) (d : database)
    (rows : list Row) (lang search_type : string) (col : Row → string) :
  conn (self mc) = Open d →
  Sql.lookup_table (table_name (self mc)) d = Some rows →
  Sql.column lang = Some col →
  search_type = "fulltext" ∨ search_type = "first_chars" →
  (search_in_db "" lang search_type mc).1 = Ok (Result_of_row <$> rows).
Proof.
  intros Hopen Htable Hcol Hmode.
  assert (∃ param, mode_statement "" search_type LIKE param
                   ∧ ∀ s, Like.like param s = true) as (param & Hs & Hall).
  { unfold mode_statement. destruct Hmode as [-> | ->].
    - exists "%%". split; [auto 10|]. intros s.
      apply (like_percent "%" s). exists EmptyString, s.
      split; [done|]. apply like_only_percent.
    - exists "%". split; [auto 10|]. apply like_only_percent. }
  rewrite (search_in_db_open mc d "" lang search_type LIKE param) by done.
  cbn [fst]. unfold Sql.select_where. rewrite Htable, Hcol.
  change (λ r0, where_test LIKE param (col r0))
    with (λ r0, Ok (A:=bool) (Like.like param (col r0))).
  rewrite filter_rows_total. by rewrite filter_all.
Qed.

Import RawFile.


End SearchMore.


(** A run of X7: a search on the filled fixture that writes through. *)
Lemma search_in_db_read_only_witness :
  self (search_in_db "test" "eng" "fulltext"
          (Fixture.filled Mock.db_path false)).2
  = self (Fixture.filled Mock.db_path false)
  ∧ files (world (search_in_db "test" "eng" "fulltext"
                    (Fixture.filled Mock.db_path false)).2)
    = files (world (Fixture.filled Mock.db_path false)).
Proof.
  apply (search_in_db_read_only "test" "eng" "fulltext"
           (Fixture.filled Mock.db_path false)).
Defined.

(** A run of X8: the whole-word search for an opening parenthesis. *)
Lemma whole_word_bad_pattern_witness :
  (search_in_db "(" "eng" "whole_word" (Fixture.filled Mock.db_path true)).1
  = match [Fixture.row_test_eng; Fixture.row_eng; Fixture.row_english] with
    | [] => Ok []
    | _ :: _ =>
        Raise (OperationalError "user-defined function raised exception")
    end.
Proof.
  apply (whole_word_bad_pattern
           (Fixture.filled Mock.db_path true) Examples.filled_database
           [Fixture.row_test_eng; Fixture.row_eng; Fixture.row_english]
           "(" "eng" eng).
  - vm_compute. reflexivity.
  - vm_compute. reflexivity.
  - vm_compute. reflexivity.
  - vm_compute. reflexivity.
Defined.

(** A run of X9: "TEST" and "test" in the full-text search. *)
Lemma search_in_db_like_ignores_case_witness :
  (search_in_db "TEST" "eng" "fulltext" (Fixture.filled Mock.db_path true)).1
  = (search_in_db "test" "eng" "fulltext" (Fixture.filled Mock.db_path true)).1.
Proof.
  apply (search_in_db_like_ignores_case (Fixture.filled Mock.db_path true)
           Examples.filled_database "TEST" "test" "eng" "fulltext").
  - vm_compute. reflexivity.
  - left. reflexivity.
  - vm_compute. reflexivity.
Defined.


(** A run of X11: a result of the first-characters search for "eng". *)
Lemma first_chars_within_fulltext_witness :
  Result_of_row Fixture.row_eng
    ∈ yielded (search_in_db "eng" "eng" "fulltext"
                 (Fixture.filled Mock.db_path true)).
Proof.
  apply (first_chars_within_fulltext
           (Fixture.filled Mock.db_path true) Examples.filled_database
           "eng" "eng" (Result_of_row Fixture.row_eng)).
  - vm_compute. reflexivity.
  - unfold within_like_limit, LIKE_PATTERN_LIMIT. simpl. lia.
  - apply list_elem_of_lookup. exists 0. vm_compute. reflexivity.
Defined.

(** A run of X12: the empty word in the Czech column. *)
Lemma search_in_db_empty_word_witness :
  (search_in_db "" "cze" "fulltext" (Fixture.filled Mock.db_path true)).1
  = Ok (Result_of_row
        <$> [Fixture.row_test_eng; Fixture.row_eng; Fixture.row_english]).
Proof.
  apply (search_in_db_empty_word (Fixture.filled Mock.db_path true)
           Examples.filled_database
           [Fixture.row_test_eng; Fixture.row_eng; Fixture.row_english]
           "cze" "fulltext" cze).
  - vm_compute. reflexivity.
  - vm_compute. reflexivity.
  - vm_compute. reflexivity.
  - left. reflexivity.
Defined.


(** ** More on initialization and shutdown *)

Section Lifecycle.

Context `{!Sqlite, !Lzma, !Regex}.

(** The whole of [db_init], case by case. *)
Lemma db_init_run (mc : Machine) :
  db_init mc
  = let s := self mc in
    let w := add_events [EvRead (db_file s)] (world mc) in
    match files (world mc) !! db_file s with
    | None => (Raise FileNotFoundError, mkMachine s w)
    | Some raw =>
        if lzma_compressed s then
          match lzma_decompress raw with
          | None =>
              (Raise (LZMAError "Input format not supported by decoder"),
               mkMachine (with_file_db_bytes raw s) w)
          | Some image =>
              match load_image image with
              | Raise e => (Raise e, mkMachine (with_file_db_bytes image s) w)
              | Ok d =>
                  (Ok (),
                   mkMachine (with_conn (Open d) (with_file_db_bytes image s))
                     w)
              end
          end
        else
          match load_image raw with
          | Raise e => (Raise e, mkMachine (with_file_db_bytes raw s) w)
          | Ok d =>
              (Ok (),
               mkMachine (with_conn (Open d) (with_file_db_bytes raw s)) w)
          end
    end.
Proof.
  cbv zeta. unfold db_init, read_bytes, add_events. run_monad.
  destruct (files (world mc) !! db_file (self mc)) as [raw|]; simpl; [|done].
  destruct (lzma_compressed (self mc)); simpl.
  - destruct (lzma_decompress raw) as [image|]; simpl; [|done].
    by destruct (load_image image).
  - by destruct (load_image raw).
Qed.

(** X14: a [db_init] that fails.  When [db_init] raises, the store has the
    connection it had before, live or not, and no file has changed; if
    the backing file is missing the exception is [FileNotFoundError]. *)
Theorem db_init_failure_keeps_connection (mc : Machine) (e : exn) :
  (db_init mc).1 = Raise e →
  conn (self (db_init mc).2) = conn (self mc)
  ∧ files (world (db_init mc).2) = files (world mc)
  ∧ (files (world mc) !! db_file (self mc) = None → e = FileNotFoundError).
Proof.
  rewrite db_init_run. cbv zeta.
  destruct (files (world mc) !! db_file (self mc)) as [raw|].
  2:{ intros [= <-]. done. }
  destruct (lzma_compressed (self mc)).
  - destruct (lzma_decompress raw) as [image|]; [|done].
    by destruct (load_image image).
  - by destruct (load_image raw).
Qed.

(** X15: an empty backing file.  When the bytes of the file, decompressed
    for an LZMA store, are empty, [db_init] returns with a live
    connection on a database without tables, whatever [deserialize]
    would make of no bytes. *)
Theorem db_init_empty_image (mc : Machine) (content : list byte) :
  files (world mc) !! db_file (self mc) = Some content →
  (if lzma_compressed (self mc) then lzma_decompress content
   else Some content) = Some [] →
  (db_init mc).1 = Ok () ∧ conn (self (db_init mc).2) = Open [].
Proof.
  intros Hfile Hempty. rewrite db_init_run. cbv zeta. rewrite Hfile.
  destruct (lzma_compressed (self mc)).
  - by rewrite Hempty.
  - by injection Hempty as ->.
Qed.

(** The whole of the constructor, case by case. *)
Lemma init_run (file table : string) (memory_only : bool) (w : World) :
  init file table memory_only w
  = match files w !! file with
    | None =>
        (Raise SystemExit,
         add_events [EvExists file;
                     EvPrint ("File " +:+ file +:+ " not found.")] w)
    | Some _ =>
        if bool_decide (Py.suffixes file ≠ [".db"; ".lzma"])
           && bool_decide (Py.suffixes file ≠ [".db"])
        then (Raise (MimeTypeMismatch MIMETYPE_MESSAGE),
              add_events [EvExists file] w)
        else (Ok (mkStore memory_only table
                    (bool_decide (Py.suffixes file = [".db"; ".lzma"]))
                    file None Unset),
              add_events [EvExists file] w)
    end.
Proof.
  unfold init, path_exists, add_events. run_monad.
  destruct (files w !! file) as [content|] eqn:Efile.
  - rewrite bool_decide_eq_true_2 by eauto. simpl.
    by destruct (bool_decide _ && bool_decide _).
  - rewrite bool_decide_eq_false_2 by (intros [? ?]; done). simpl.
    by rewrite <- app_assoc.
Qed.

(** X16: what the constructor accepts.  The constructor returns a store
    exactly for a path that exists and whose suffixes are [.db] or [.db],
    [.lzma]; the store is flagged as compressed exactly in the second
    case and has no connection yet.  Whatever the outcome, the
    constructor changes no file. *)
Theorem init_returns_iff (file table : string) (memory_only : bool)
    (w : World) :
  ((∃ s, (init file table memory_only w).1 = Ok s)
   ↔ is_Some (files w !! file)
     ∧ (Py.suffixes file = [".db"; ".lzma"] ∨ Py.suffixes file = [".db"]))
  ∧ (∀ s, (init file table memory_only w).1 = Ok s →
          s = mkStore memory_only table
                (bool_decide (Py.suffixes file = [".db"; ".lzma"]))
                file None Unset)
  ∧ files (init file table memory_only w).2 = files w.
Proof.
  rewrite init_run.
  destruct (files w !! file) as [content|]; simpl.
  2:{ split_and!; [|done..]. split; [by intros [? ?]|by intros [[? ?] _]]. }
  destruct (decide (Py.suffixes file = [".db"; ".lzma"])) as [E1|N1].
  { rewrite (bool_decide_eq_false_2 (_ ≠ [".db"; ".lzma"])) by (intros ?; done).
    simpl. split_and!; [|by intros ? [= <-]|done]. split; eauto. }
  destruct (decide (Py.suffixes file = [".db"])) as [E2|N2].
  { rewrite (bool_decide_eq_false_2 (_ ≠ [".db"])) by (intros ?; done).
    rewrite andb_false_r. simpl.
    split_and!; [|by intros ? [= <-]|done]. split; eauto. }
  rewrite !bool_decide_eq_true_2 by done. simpl.
  split_and!; [|done..]. split; [by intros [? ?]|]. intros [_ [?|?]]; done.
Qed.

(** X17: after [close_db].  Once a live store is closed, [prepare_db],
    [fill_db] and [search_in_db] raise, and leave the store and every
    file as they are; the backing file cannot be harmed by a late call. *)
Theorem closed_store_refuses (c : call) (mc : Machine) (d : database) :
  conn (self mc) = Open d →
  api_call c = true →
  c ≠ CallDbInit → c ≠ CallCloseDb →
  (close_db mc).1 = Ok ()
  ∧ conn (self (close_db mc).2) = Closed
  ∧ (∃ e, (run_call c (close_db mc).2).1 = Raise e)
  ∧ self (run_call c (close_db mc).2).2 = self (close_db mc).2
  ∧ files (world (run_call c (close_db mc).2).2) = files (world mc).
Proof.
  intros Hopen Hapi Hinit Hclose.
  assert (close_db mc = (Ok (), mkMachine (with_conn Closed (self mc)) (world mc)))
    as ->.
  { unfold close_db. run_monad. by rewrite Hopen. }
  cbn [fst snd]. split; [done|]. split; [done|].
  set (mc' := mkMachine (with_conn Closed (self mc)) (world mc)).
  assert (conn (self mc') = Closed) as Hclosed by done.
  destruct c; try done; unfold run_call.
  - destruct (prepare_db_not_open mc') as (e & E & _);
      [by intros d'; rewrite Hclosed|].
    unfold mbind, M_bind. rewrite E. simpl. eauto.
  - unfold mbind, M_bind. rewrite fill_db_run. cbv zeta. rewrite Hclosed.
    repeat case_match; simplify_eq; simpl; eauto.
  - split_and!.
    + unfold_methods. run_monad.
      repeat case_decide; simpl; eauto.
    + exact (search_in_db_untouched _ _ _ mc').
    + exact (search_in_db_keeps_files _ _ _ mc').
Qed.

End Lifecycle.

(** A run of X14: a store on the unreadable path. *)
Lemma db_init_failure_keeps_connection_witness :
  conn (self (db_init Examples.store_without_file).2)
  = conn (self Examples.store_without_file)
  ∧ files (world (db_init Examples.store_without_file).2)
    = files (world Examples.store_without_file)
  ∧ (files (world Examples.store_without_file)
     !! db_file (self Examples.store_without_file) = None
     → FileNotFoundError = FileNotFoundError).
Proof.
  apply (db_init_failure_keeps_connection Examples.store_without_file
           FileNotFoundError).
  vm_compute. reflexivity.
Defined.

(** A run of X15: the LZMA file of the tests, which holds no bytes. *)
Lemma db_init_empty_image_witness :
  (db_init (mkMachine (Examples.fresh_store Mock.lzma_path true true)
              Mock.tmp_path)).1 = Ok ()
  ∧ conn (self (db_init (mkMachine
                           (Examples.fresh_store Mock.lzma_path true true)
                           Mock.tmp_path)).2) = Open [].
Proof.
  apply (db_init_empty_image
           (mkMachine (Examples.fresh_store Mock.lzma_path true true)
              Mock.tmp_path)
           (Mock.mock_compress [])).
  - vm_compute. reflexivity.
  - vm_compute. reflexivity.
Defined.

(** A run of X17: a raw file loaded after [close_db]. *)
Lemma closed_store_refuses_witness :
  (close_db (Fixture.filled Mock.db_path false)).1 = Ok ()
  ∧ conn (self (close_db (Fixture.filled Mock.db_path false)).2) = Closed
  ∧ (∃ e, (run_call (CallFillDb (Some Mock.raw_file))
             (close_db (Fixture.filled Mock.db_path false)).2).1 = Raise e)
  ∧ self (run_call (CallFillDb (Some Mock.raw_file))
            (close_db (Fixture.filled Mock.db_path false)).2).2
    = self (close_db (Fixture.filled Mock.db_path false)).2
  ∧ files (world (run_call (CallFillDb (Some Mock.raw_file))
                    (close_db (Fixture.filled Mock.db_path false)).2).2)
    = files (world (Fixture.filled Mock.db_path false)).
Proof.
  apply (closed_store_refuses (CallFillDb (Some Mock.raw_file))
           (Fixture.filled Mock.db_path false) Examples.filled_database).
  - vm_compute. reflexivity.
  - reflexivity.
  - discriminate.
  - discriminate.
Defined.

(** A run of X16: the LZMA file of the tests. *)
Lemma init_returns_iff_witness :
  ((∃ s, (init Mock.lzma_path DEFAULT_TABLE true Mock.tmp_path).1 = Ok s)
   ↔ is_Some (files Mock.tmp_path !! Mock.lzma_path)
     ∧ (Py.suffixes Mock.lzma_path = [".db"; ".lzma"]
        ∨ Py.suffixes Mock.lzma_path = [".db"]))
  ∧ (∀ s, (init Mock.lzma_path DEFAULT_TABLE true Mock.tmp_path).1 = Ok s →
          s = mkStore true DEFAULT_TABLE
                (bool_decide (Py.suffixes Mock.lzma_path = [".db"; ".lzma"]))
                Mock.lzma_path None Unset)
  ∧ files (init Mock.lzma_path DEFAULT_TABLE true Mock.tmp_path).2
    = files Mock.tmp_path.
Proof.
  apply (init_returns_iff Mock.lzma_path DEFAULT_TABLE true Mock.tmp_path).
Defined.

(** ** Sessions *)

Section Sessions.

Context `{!Sqlite, !Lzma, !Regex}.

Lemma db_init_same_config (mc : Machine) :
  same_config (self mc) (self (db_init mc).2).
Proof.
  rewrite db_init_run. cbv zeta. by repeat case_match.
Qed.

Lemma prepare_db_cases (mc : Machine) :
  (∃ d, conn (self mc) = Open d
        ∧ prepare_db mc
          = (Ok (),
             mkMachine
               (with_conn
                  (Open (Sql.create_table_if_not_exists
                           (table_name (self mc)) d)) (self mc))
               (mutated (self mc) (create_sql (table_name (self mc)))
                  (Sql.create_table_if_not_exists (table_name (self mc)) d)
                  (world mc))))
  ∨ (∃ e, prepare_db mc = (Raise e, mc)).
Proof.
  destruct (conn (self mc)) as [|d|] eqn:E.
  - right. destruct (prepare_db_not_open mc) as (e & He & _);
      [by rewrite E|eauto].
  - left. exists d. split; [done|]. by apply prepare_db_open.
  - right. destruct (prepare_db_not_open mc) as (e & He & _);
      [by rewrite E|eauto].
Qed.

Lemma fill_db_cases (raw_file : option string) (mc : Machine) :
  (∃ mc', fill_db raw_file mc = (Ok (), mc'))
  ∨ (∃ e mc', fill_db raw_file mc = (Raise e, mc')
              ∧ self mc' = self mc ∧ files (world mc') = files (world mc)).
Proof.
  destruct (fill_db raw_file mc) as [[[]|e] mc'] eqn:E; [eauto|].
  right. exists e, mc'. split; [done|].
  rewrite fill_db_run in E. cbv zeta in E.
  repeat case_match; by simplify_eq.
Qed.

Lemma close_db_cases (mc : Machine) :
  close_db mc = (Ok (), mkMachine (with_conn Closed (self mc)) (world mc))
  ∨ (∃ e, close_db mc = (Raise e, mc)).
Proof.
  unfold close_db. run_monad. destruct (conn (self mc)); eauto.
Qed.

(** One call of the client interface: the configuration stays, and a
    file other than the backing file is never touched. *)
Lemma run_call_frame (c : call) (mc : Machine) :
  same_config (self mc) (self (run_call c mc).2)
  ∧ ∀ p, p ≠ db_file (self mc) →
         files (world (run_call c mc).2) !! p = files (world mc) !! p.
Proof.
  destruct c; unfold run_call; unfold mbind, M_bind, mret, M_ret.
  - pose proof (db_init_same_config mc) as Hcfg.
    pose proof (db_init_keeps_files mc) as Hfiles.
    destruct (db_init mc) as [[[]|e] mc']; simpl in *; split; try done;
      intros p _; by rewrite Hfiles.
  - destruct (prepare_db_cases mc) as [(d & Hopen & ->)|(e & ->)]; simpl.
    + split; [done|]. intros p Hp. unfold mutated, flushed.
      destruct (memory_only (self mc)); simpl; [done|].
      by rewrite lookup_insert_ne.
    + split; [apply same_config_refl|done].
  - destruct (fill_db_cases raw_file mc)
      as [(mc' & E)|(e & mc' & E & Hself & Hfiles)]; rewrite E; simpl.
    + apply fill_db_ok in E
        as (d & content & data & rows & _ & _ & _ & _ & -> & ->).
      split; [done|]. intros p Hp.
      destruct (memory_only (self mc)); [done|]. by rewrite lookup_insert_ne.
    + rewrite Hself, Hfiles. split; [apply same_config_refl|done].
  - rewrite search_in_db_untouched, search_in_db_keeps_files.
    split; [apply same_config_refl|done].
  - destruct (conn (self mc)) as [|d|] eqn:E.
    + destruct (write_to_file_not_open mc) as (e & -> & _);
        [by rewrite E|]. simpl. split; [apply same_config_refl|done].
    + rewrite (write_to_file_open mc d E). simpl.
      split; [apply same_config_refl|]. intros p Hp. unfold flushed. simpl.
      by rewrite lookup_insert_ne.
    + destruct (write_to_file_not_open mc) as (e & -> & _);
        [by rewrite E|]. simpl. split; [apply same_config_refl|done].
  - destruct (close_db_cases mc) as [->|(e & ->)]; simpl;
      (split; [done || apply same_config_refl|done]).
Qed.


Lemma run_call_keeps_files (c : call) (mc : Machine) :
  api_call c = true →
  memory_only (self mc) = true →
  files (world (run_call c mc).2) = files (world mc).
Proof.
  intros Hapi Hmo. destruct c; try done; unfold run_call;
    unfold mbind, M_bind, mret, M_ret.
  - pose proof (db_init_keeps_files mc) as E.
    by destruct (db_init mc) as [[|] ?].
  - pose proof (prepare_db_keeps_files mc Hmo) as E.
    by destruct (prepare_db mc) as [[|] ?].
  - pose proof (fill_db_keeps_files raw_file mc Hmo) as E.
    by destruct (fill_db raw_file mc) as [[|] ?].
  - apply search_in_db_keeps_files.
  - pose proof (close_db_keeps_files mc) as E.
    by destruct (close_db mc) as [[|] ?].
Qed.

Lemma run_calls_same_config (cs : list call) (mc : Machine) :
  same_config (self mc) (self (run_calls cs mc).2).
Proof.
  revert mc. induction cs as [|c cs IH]; intros mc; [apply same_config_refl|].
  destruct (run_call_frame c mc) as [(Cmo & Ctn & Clz & Cdb) _].
  cbn [run_calls]. destruct (run_call c mc) as [r mc']. cbn [snd] in *.
  destruct (IH mc') as (Dmo & Dtn & Dlz & Ddb).
  destruct (run_calls cs mc') as [rs mc'']. cbn [snd] in *.
  repeat split; congruence.
Qed.

(** X19: a memory-only session.  On a memory-only store, no sequence of
    [db_init], [prepare_db], [fill_db], [search_in_db] and [close_db]
    changes any file; a [db_init] after the session loads the database
    the backing file held before it, so that nothing of what the calls
    did in memory is still there. *)
Theorem memory_only_session (cs : list call) (mc : Machine) :
  memory_only (self mc) = true →
  Forall (λ c, api_call c = true) cs →
  files (world (run_calls cs mc).2) = files (world mc)
  ∧ ∀ content d,
      files (world mc) !! db_file (self mc) = Some content →
      stored_database (self mc) content = Some d →
      (db_init (run_calls cs mc).2).1 = Ok ()
      ∧ conn (self (db_init (run_calls cs mc).2).2) = Open d.
Proof.
  intros Hmo Hcs.
  assert (files (world (run_calls cs mc).2) = files (world mc)) as Hfiles.
  { revert mc Hmo. induction Hcs as [|c cs Hc Hcs IH]; intros mc Hmo; [done|].
    pose proof (run_call_keeps_files c mc Hc Hmo) as Hf.
    destruct (run_call_frame c mc) as [(Cmo & _) _].
    cbn [run_calls]. destruct (run_call c mc) as [r mc']. cbn [snd] in *.
    specialize (IH mc'). rewrite Cmo in IH. specialize (IH Hmo).
    destruct (run_calls cs mc') as [rs mc'']. cbn [snd] in *. congruence. }
  split; [done|]. intros content d Hfile Hstored.
  destruct (run_calls_same_config cs mc) as (Dmo & Dtn & Dlz & Ddb).
  destruct (db_init_stored (run_calls cs mc).2 content d) as [image ->].
  - by rewrite Hfiles, Ddb.
  - unfold stored_database in *. by rewrite Dlz.
  - done.
Qed.

End Sessions.


(** A run of X19: the session of the tests on a memory-only store. *)
Lemma memory_only_session_witness :
  files (world (run_calls Fixture.session (Fixture.adb Mock.db_path true)).2)
  = files (world (Fixture.adb Mock.db_path true))
  ∧ ∀ content d,
      files (world (Fixture.adb Mock.db_path true))
      !! db_file (self (Fixture.adb Mock.db_path true)) = Some content →
      stored_database (self (Fixture.adb Mock.db_path true)) content = Some d →
      (db_init (run_calls Fixture.session
                  (Fixture.adb Mock.db_path true)).2).1 = Ok ()
      ∧ conn (self (db_init (run_calls Fixture.session
                               (Fixture.adb Mock.db_path true)).2).2) = Open d.
Proof.
  apply (memory_only_session Fixture.session (Fixture.adb Mock.db_path true)).
  - vm_compute. reflexivity.
  - repeat (apply Forall_cons_2; [reflexivity|]). apply Forall_nil_2.
Defined.

(** ** Write-through *)

Section WriteThrough.

Context `{!Sqlite, !Lzma, !Regex, !FaithfulImages}.

Lemma synced_flushed (mc : Machine) (d d' : database) :
  synced mc →
  conn (self mc) = Open d →
  synced
    (mkMachine (with_conn (Open d') (self mc))
       (mkWorld
          (<[db_file (self mc) :=
               flushed_bytes (self mc) d'
                 (default [] (files (world mc) !! db_file (self mc)))]>
             (files (world mc)))
          (events (world mc)))).
Proof.
  intros Hsync Hopen d'' Hd''. simpl in *. injection Hd'' as <-.
  eexists. rewrite lookup_insert_eq. split; [done|].
  change (stored_database (with_conn (Open d') (self mc)))
    with (stored_database (self mc)).
  apply stored_database_flushed. intros Hplain.
  destruct (Hsync d Hopen) as (content & -> & Hstored). simpl.
  exists d. by apply (stored_database_loadable (self mc)).
Qed.

Lemma synced_ext (mc mc' : Machine) :
  synced mc →
  conn (self mc') = conn (self mc) →
  lzma_compressed (self mc') = lzma_compressed (self mc) →
  db_file (self mc') = db_file (self mc) →
  files (world mc') = files (world mc) →
  synced mc'.
Proof.
  intros Hsync Hconn Hlz Hdb Hfiles d. unfold synced, stored_database in *.
  rewrite Hconn, Hlz, Hdb, Hfiles. apply Hsync.
Qed.

Lemma synced_loaded (mc mc' : Machine) (content : list byte) (d : database) :
  files (world mc) !! db_file (self mc) = Some content →
  stored_database (self mc) content = Some d →
  conn (self mc') = Open d →
  lzma_compressed (self mc') = lzma_compressed (self mc) →
  db_file (self mc') = db_file (self mc) →
  files (world mc') = files (world mc) →
  synced mc'.
Proof.
  intros Hfile Hstored Hconn Hlz Hdb Hfiles d'.
  unfold synced, stored_database in *. rewrite Hconn, Hlz, Hdb, Hfiles.
  intros [= <-]. eauto.
Qed.

Lemma run_call_synced (c : call) (mc : Machine) :
  memory_only (self mc) = false →
  api_call c = true →
  synced mc → synced (run_call c mc).2.
Proof.
  intros Hmo Hapi Hsync. destruct c; try done; unfold run_call;
    unfold mbind, M_bind, mret, M_ret.
  - rewrite db_init_run. cbv zeta.
    destruct (files (world mc) !! db_file (self mc)) as [raw|] eqn:Efile;
      [|by apply (synced_ext mc)].
    destruct (lzma_compressed (self mc)) eqn:Elz.
    + destruct (lzma_decompress raw) as [image|] eqn:Edec;
        [|by apply (synced_ext mc)].
      destruct (load_image image) as [d|e] eqn:Eload;
        [|by apply (synced_ext mc)].
      apply (synced_loaded mc _ raw d); try done.
      unfold stored_database. by rewrite Elz, Edec; simpl; rewrite Eload.
    + destruct (load_image raw) as [d|e] eqn:Eload;
        [|by apply (synced_ext mc)].
      apply (synced_loaded mc _ raw d); try done.
      unfold stored_database. by rewrite Elz; simpl; rewrite Eload.
  - destruct (prepare_db_cases mc) as [(d & Hopen & ->)|(e & ->)];
      cbn [snd]; [|done].
    unfold mutated. rewrite Hmo. unfold flushed, add_events. simpl.
    intros d' Hd'. simpl in Hd'. injection Hd' as <-.
    destruct (synced_flushed mc d
                (Sql.create_table_if_not_exists (table_name (self mc)) d)
                Hsync Hopen _ eq_refl) as (content & Hc & Hs).
    simpl in *. eauto.
  - destruct (fill_db_cases raw_file mc)
      as [(mc' & E)|(e & mc' & E & Hself & Hfiles)]; rewrite E; cbn [snd].
    + apply fill_db_ok in E
        as (d & content & data & rows & Hopen & _ & _ & _ & Hself & Hfiles).
      rewrite Hmo in Hfiles.
      destruct mc' as [s' w']. simpl in Hself, Hfiles. subst s'.
      intros d' Hd'. simpl in Hd'. injection Hd' as <-.
      destruct (synced_flushed mc d
                  (Sql.append_rows (table_name (self mc)) data d)
                  Hsync Hopen _ eq_refl) as (content' & Hc & Hs).
      simpl in *. rewrite Hfiles. eauto.
    + apply (synced_ext mc); [done|by rewrite Hself..|done].
  - apply (synced_ext mc); [done|by rewrite search_in_db_untouched..
                            |apply search_in_db_keeps_files].
  - destruct (close_db_cases mc) as [->|(e & ->)]; cbn [snd]; [|done].
    intros d Hd. done.
Qed.

(** X20: write-through keeps file and memory together.  Let a store that
    writes through start with its backing file holding the database of
    its connection, as a store does that has no connection yet.  Then
    after any sequence of [db_init], [prepare_db], [fill_db],
    [search_in_db] and [close_db], whatever their outcomes, the backing
    file holds the database of the connection whenever that is live; and
    a fresh store on the same file loads that database.  (Under the
    codec laws.) *)
Theorem write_through_session (cs : list call) (mc : Machine) (d : database)
    (fresh : Store) (w : World) :
  memory_only (self mc) = false →
  synced mc →
  Forall (λ c, api_call c = true) cs →
  conn (self (run_calls cs mc).2) = Open d →
  same_config (self (run_calls cs mc).2) fresh →
  files w = files (world (run_calls cs mc).2) →
  (∃ content,
     files (world (run_calls cs mc).2) !! db_file (self mc) = Some content
     ∧ stored_database (self mc) content = Some d)
  ∧ (db_init (mkMachine fresh w)).1 = Ok ()
  ∧ conn (self (db_init (mkMachine fresh w)).2) = Open d.
Proof.
  intros Hmo Hsync Hcs Hconn (Fmo & Ftn & Flz & Fdb) Hw.
  assert (synced (run_calls cs mc).2) as Hend.
  { clear Hconn Fmo Ftn Flz Fdb Hw.
    revert mc Hmo Hsync. induction Hcs as [|c cs Hc Hcs IH]; intros mc Hmo Hsync;
      [done|].
    pose proof (run_call_synced c mc Hmo Hc Hsync) as Hstep.
    destruct (run_call_frame c mc) as [(Cmo & _) _].
    cbn [run_calls]. destruct (run_call c mc) as [r mc']. cbn [snd] in *.
    specialize (IH mc'). rewrite Cmo in IH. specialize (IH Hmo Hstep).
    by destruct (run_calls cs mc') as [rs mc'']. }
  destruct (run_calls_same_config cs mc) as (Dmo & Dtn & Dlz & Ddb).
  destruct (Hend d Hconn) as (content & Hfile & Hstored).
  assert (stored_database (self mc) content = Some d) as Hstored'
    by (unfold stored_database in *; by rewrite <- Dlz).
  split; [exists content; by rewrite <- Ddb|].
  destruct (db_init_stored (mkMachine fresh w) content d) as [image ->].
  - simpl. by rewrite Hw, Fdb.
  - unfold stored_database in *. simpl. by rewrite Flz.
  - done.
Qed.

End WriteThrough.

(** A run of X20: the session of the tests on a store that writes
    through. *)
Lemma write_through_session_witness :
  (∃ content,
     files (world (run_calls Fixture.session
                     (Fixture.adb Mock.db_path false)).2)
     !! db_file (self (Fixture.adb Mock.db_path false)) = Some content
     ∧ stored_database (self (Fixture.adb Mock.db_path false)) content
       = Some Examples.filled_database)
  ∧ (db_init (mkMachine (Examples.fresh_store Mock.db_path false false)
                (world (run_calls Fixture.session
                          (Fixture.adb Mock.db_path false)).2))).1 = Ok ()
  ∧ conn (self (db_init
                  (mkMachine (Examples.fresh_store Mock.db_path false false)
                     (world (run_calls Fixture.session
                               (Fixture.adb Mock.db_path false)).2))).2)
    = Open Examples.filled_database.
Proof.
  apply (write_through_session Fixture.session
           (Fixture.adb Mock.db_path false) Examples.filled_database
           (Examples.fresh_store Mock.db_path false false)
           (world (run_calls Fixture.session
                     (Fixture.adb Mock.db_path false)).2)).
  - vm_compute. reflexivity.
  - intros d Hd. vm_compute in Hd. injection Hd as <-.
    exists []. split; vm_compute; reflexivity.
  - repeat (apply Forall_cons_2; [reflexivity|]). apply Forall_nil_2.
  - vm_compute. reflexivity.
  - split_and!; vm_compute; reflexivity.
  - reflexivity.
Defined.

(** ** File names the constructor accepts *)

Section FileNames.

Context `{!Sqlite, !Lzma, !Regex}.

Import RawFile.

Lemma split_sep_length (sep : ascii) (a b : string) :
  2 ≤ length (Py.split sep (a +:+ String sep b)).
Proof.
  induction a as [|c a IH].
  - change (EmptyString +:+ ?x) with x. simpl. rewrite decide_True by done.
    simpl. pose proof (split_not_nil sep b).
    destruct (Py.split sep b); [done|simpl; lia].
  - rewrite app_cons. simpl. case_decide; [simpl; lia|].
    destruct (Py.split sep (a +:+ String sep b)); simpl in *; lia.
Qed.

Lemma last_split_sep (sep : ascii) (a b : string) :
  last (Py.split sep (a +:+ String sep b)) = last (Py.split sep b).
Proof.
  induction a as [|c a IH].
  - change (EmptyString +:+ ?x) with x. simpl. rewrite decide_True by done.
    pose proof (split_not_nil sep b). by destruct (Py.split sep b).
  - rewrite app_cons. simpl.
    pose proof (split_sep_length sep a b) as Hlen.
    destruct (Py.split sep (a +:+ String sep b)) as [|h [|h' t]];
      simpl in Hlen; try lia.
    by case_decide.
Qed.

Lemma path_name_in_dir (dir name : string) :
  free_of Py.SLASH name = true → Py.path_name (in_dir dir name) = name.
Proof.
  intros Hname. unfold Py.path_name, in_dir.
  by rewrite last_split_sep, split_free.
Qed.

Lemma ends_with_dot_app (a b : string) :
  b ≠ EmptyString → Py.ends_with_dot (a +:+ b) = Py.ends_with_dot b.
Proof.
  intros Hb. induction a as [|c a IH]; [done|].
  rewrite app_cons. simpl.
  destruct (a +:+ b) as [|x y] eqn:E; [|done].
  destruct a; [|done]. by destruct b.
Qed.

Lemma lstrip_dots_stem (stem rest : string) :
  stem ≠ EmptyString → free_of Py.DOT stem = true →
  Py.lstrip_dots (stem +:+ rest) = stem +:+ rest.
Proof.
  intros Hne Hfree. destruct stem as [|c stem]; [done|].
  apply free_of_cons in Hfree as [Hc _].
  rewrite app_cons. simpl. by rewrite decide_False.
Qed.

(** The suffixes of a name made of a plain stem and the given dotted
    extensions. *)
Lemma suffixes_of_stem (dir stem ext : string) :
  plain_stem stem →
  free_of Py.SLASH ext = true →
  Py.ends_with_dot (String Py.DOT ext) = false →
  Py.suffixes (in_dir dir (stem +:+ String Py.DOT ext))
  = String Py.DOT <$> Py.split Py.DOT ext.
Proof.
  intros (Hne & Hdot & Hslash) Hext Hend. unfold Py.suffixes.
  rewrite path_name_in_dir.
  2:{ rewrite free_of_app, Hslash. simpl. by rewrite Hext. }
  rewrite ends_with_dot_app, Hend by done.
  rewrite lstrip_dots_stem by done.
  by rewrite split_field.
Qed.

(** X21: the names the constructor accepts.  For a file that exists, in
    any directory, whose name is a stem without dot followed by [.db],
    the constructor returns a store that is not flagged as compressed;
    for such a stem followed by [.db.lzma], a store that is. *)
Theorem init_accepts_plain_stem (dir stem table : string)
    (memory_only compressed : bool) (w : World) :
  plain_stem stem →
  is_Some
    (files w
     !! in_dir dir (stem +:+ (if compressed then ".db.lzma" else ".db"))) →
  (init (in_dir dir (stem +:+ (if compressed then ".db.lzma" else ".db")))
     table memory_only w).1
  = Ok (mkStore memory_only table compressed
          (in_dir dir (stem +:+ (if compressed then ".db.lzma" else ".db")))
          None Unset).
Proof.
  intros Hstem. set (file := in_dir _ _). intros Hfile. rewrite init_run.
  destruct Hfile as [content ->].
  assert (Py.suffixes file
          = if compressed then [".db"; ".lzma"] else [".db"]) as ->.
  { unfold file. destruct compressed.
    - change (in_dir dir (stem +:+ ".db.lzma"))
        with (in_dir dir (stem +:+ String Py.DOT "db.lzma")).
      by rewrite suffixes_of_stem.
    - change (in_dir dir (stem +:+ ".db"))
        with (in_dir dir (stem +:+ String Py.DOT "db")).
      by rewrite suffixes_of_stem. }
  by destruct compressed.
Qed.

(** X22: a name with a further dot.  For a file that exists and whose name
    has a dot inside the part before [.db], as in [my.dict.db], the
    constructor raises [MimeTypeMismatch], although the name ends in
    [.db]. *)
Theorem init_rejects_dotted_stem (dir stem1 stem2 table : string)
    (memory_only : bool) (w : World) :
  plain_stem stem1 → plain_stem stem2 →
  is_Some
    (files w !! in_dir dir (stem1 +:+ String Py.DOT (stem2 +:+ ".db"))) →
  (init (in_dir dir (stem1 +:+ String Py.DOT (stem2 +:+ ".db")))
     table memory_only w).1
  = Raise (MimeTypeMismatch MIMETYPE_MESSAGE).
Proof.
  intros Hstem1 (Hne2 & Hdot2 & Hslash2). set (file := in_dir _ _).
  intros Hfile. rewrite init_run.
  destruct Hfile as [content ->].
  assert (Py.suffixes file = [String Py.DOT stem2; ".db"]) as ->.
  { unfold file. rewrite (suffixes_of_stem dir stem1 (stem2 +:+ ".db")).
    - change (stem2 +:+ ".db") with (stem2 +:+ String Py.DOT "db").
      by rewrite (split_field Py.DOT stem2 "db").
    - done.
    - rewrite free_of_app, Hslash2. done.
    - change (String Py.DOT (stem2 +:+ ".db"))
        with (String Py.DOT stem2 +:+ ".db").
      by rewrite ends_with_dot_app. }
  rewrite (bool_decide_eq_true_2 (_ ≠ [".db"; ".lzma"]))
    by (intros E; simplify_eq).
  by rewrite (bool_decide_eq_true_2 (_ ≠ [".db"])) by (intros E; simplify_eq).
Qed.

End FileNames.

(** A run of X21: the LZMA file of the tests, [tmp/test.db.lzma]. *)
Lemma init_accepts_plain_stem_witness :
  (init (in_dir "tmp" ("test" +:+ ".db.lzma")) DEFAULT_TABLE true
     Mock.tmp_path).1
  = Ok (mkStore true DEFAULT_TABLE true
          (in_dir "tmp" ("test" +:+ ".db.lzma")) None Unset).
Proof.
  apply (init_accepts_plain_stem "tmp" "test" DEFAULT_TABLE true true
           Mock.tmp_path).
  - split_and!; [discriminate|reflexivity|reflexivity].
  - vm_compute. eexists. reflexivity.
Defined.

(** A run of X22: the file [tmp/my.dict.db]. *)
Lemma init_rejects_dotted_stem_witness :
  (init (in_dir "tmp" ("my" +:+ String Py.DOT ("dict" +:+ ".db")))
     DEFAULT_TABLE true Examples.with_dotted_name).1
  = Raise (MimeTypeMismatch MIMETYPE_MESSAGE).
Proof.
  apply (init_rejects_dotted_stem "tmp" "my" "dict" DEFAULT_TABLE true
           Examples.with_dotted_name).
  - split_and!; [discriminate|reflexivity|reflexivity].
  - split_and!; [discriminate|reflexivity|reflexivity].
  - vm_compute. eexists. reflexivity.
Defined.
